(** * The Snowflake profiler of DataHub's metadata ingestion

    A shallow embedding of
    [metadata-ingestion/src/datahub/ingestion/source/snowflake/snowflake_profiler.py]
    (class [SnowflakeProfiler]) together with the properties of its
    specification.

    Python values are modelled as they are used in that file: an [int] that
    counts rows or workers as [N], other integers as [Z], [float] as a
    binary64 number with an integer mantissa, [str] as the [string] of its
    UTF-8 bytes, [Optional[T]] as [option T], [dict] with string keys as
    [gmap string _],
    a raised exception as the [Raise] result of a computation that threads
    the mutable objects ([self.config.options], [self.report], the
    warehouse) explicitly. *)

From Stdlib Require Import ZArith Lia List Ascii String DecimalString.
From Stdlib Require SpecFloat.
From stdpp Require Import gmap strings.

Open Scope Z_scope.

(** ** Python values *)

(** The values found in the dictionaries of this module ([config.options],
    the batch kwargs). *)
Inductive PyVal : Type :=
| PyNone
| PyBool (b : bool)
| PyInt (z : Z)
| PyStr (s : string)
| PyDict (items : list (string * string)).

(** Exceptions the module can raise or let through. *)
Inductive PyExn : Type :=
| KeyError (key : string)
| AssertionError
| ZeroDivisionError
| OverflowError
| ExternalError (what : string).

Inductive result (A : Type) : Type :=
| Ok (a : A)
| Raise (e : PyExn).
Arguments Ok {A} a.
Arguments Raise {A} e.

(** Truth value of an [Optional[int]] that holds a count: [None] and [0]
    are falsy. *)
Definition truthy_opt_int (o : option N) : bool :=
  match o with
  | None => false
  | Some n => negb (n =? 0)%N
  end.

(** ** Strings *)

Module PyStrOps.

(** The double-quote character, code 34. *)
Definition dquote : string := String (ascii_of_nat 34) EmptyString.

(** [str.upper] on one ASCII character: the letters a-z (codes 97-122)
    move to A-Z, every other character is kept. *)
Definition upper_ascii (c : ascii) : ascii :=
  let n := nat_of_ascii c in
  if (97 <=? n)%nat && (n <=? 122)%nat then ascii_of_nat (n - 32) else c.

(** [str.upper] on a string written in ASCII, character by character.
    It says nothing of other strings: see [str_upper] below. *)
Fixpoint upper (s : string) : string :=
  match s with
  | EmptyString => EmptyString
  | String c s' => String (upper_ascii c) (upper s')
  end.

(** A string written in ASCII: every byte is below 128. *)
Definition is_ascii_char (c : ascii) : bool := (nat_of_ascii c <? 128)%nat.

Fixpoint is_ascii (s : string) : bool :=
  match s with
  | EmptyString => true
  | String c s' => is_ascii_char c && is_ascii s'
  end.

Definition is_lower_ascii (c : ascii) : bool :=
  let n := nat_of_ascii c in (97 <=? n)%nat && (n <=? 122)%nat.

Fixpoint has_lower (s : string) : bool :=
  match s with
  | EmptyString => false
  | String c s' => is_lower_ascii c || has_lower s'
  end.

(** Decimal rendering of a natural number, [str(n)] for [n >= 0]. *)
Definition decimal (n : Z) : string :=
  NilZero.string_of_uint (N.to_uint (Z.to_N n)).

(** The digit of a number below ten. *)
Definition digit (d : Z) : ascii := ascii_of_nat (48 + Z.to_nat d).

(** The [width] low-order decimal digits of [n], most significant first:
    [n] printed on [width] digits with zeros on the left when
    [0 <= n < 10^width]. *)
Fixpoint low_digits (width : nat) (n : Z) : string :=
  match width with
  | O => EmptyString
  | S w => (low_digits w (n / 10) +:+ String (digit (n mod 10)) EmptyString)%string
  end.

End PyStrOps.

(** ** Floating point: true division of integers and fixed-point formatting *)

Module PyFloat.

(** A finite binary64 number [(-1)^neg * mant * 2^expo].  Integer true
    division produces no infinity and no NaN: it raises instead. *)
Record float : Type := Float { neg : bool; mant : Z; expo : Z }.

(** Round-half-to-even of the non-negative rational [n / d], [d > 0]. *)
Definition round_half_even (n d : Z) : Z :=
  let q := n / d in
  let r := n mod d in
  if 2 * r <? d then q
  else if d <? 2 * r then q + 1
  else if Z.even q then q else q + 1.

(** Exponent of the binary64 number nearest to [a / b] for [a, b > 0]:
    the quotient scaled by [2^-e] lies in [[2^52, 2^53)] unless the
    result is subnormal, where the exponent stops at -1074. *)
Definition quotient_exponent (a b : Z) : Z :=
  let d := Z.log2 a - Z.log2 b in
  let above := if 0 <=? d then b * 2 ^ d <=? a else b <=? a * 2 ^ (- d) in
  Z.max (if above then d - 52 else d - 53) (-1074).

(** [a / 2^e / b] rounded to an integer, for any sign of [e]. *)
Definition scaled_quotient (a b e : Z) : Z :=
  if 0 <=? e then round_half_even a (b * 2 ^ e)
  else round_half_even (a * 2 ^ (- e)) b.

(** [a / b] on Python integers ([long_true_divide]): the correctly
    rounded binary64 quotient; a zero divisor and a quotient beyond the
    binary64 range raise. *)
Definition true_divide (a b : Z) : result float :=
  if b =? 0 then Raise ZeroDivisionError
  else
    let sign := xorb (a <? 0) (b <? 0) in
    if a =? 0 then Ok (Float sign 0 0)
    else
      let e := quotient_exponent (Z.abs a) (Z.abs b) in
      let m := scaled_quotient (Z.abs a) (Z.abs b) e in
      if (0 <=? e) && (2 ^ 1024 <=? m * 2 ^ e) then Raise OverflowError
      else Ok (Float sign m e).

(** The float times [10^digits], rounded half to even: the digits that the
    conversion [.{digits}f] prints. *)
Definition scaled_decimal (digits : Z) (x : float) : Z :=
  if 0 <=? expo x then mant x * 2 ^ expo x * 10 ^ digits
  else round_half_even (mant x * 10 ^ digits) (2 ^ (- expo x)).

(** [format(x, '.8f')]: sign, integer part, a point and eight digits. *)
Definition format_8f (x : float) : string :=
  let n := scaled_decimal 8 x in
  ((if neg x then "-" else EmptyString)
     +:+ PyStrOps.decimal (n / 10 ^ 8)
     +:+ "."
     +:+ PyStrOps.low_digits 8 (n mod 10 ^ 8))%string.

(** [f"{a / b:.8f}"], or [None] when the division raises. *)
Definition render_quotient (a b : Z) : option string :=
  match true_divide a b with
  | Ok x => Some (format_8f x)
  | Raise _ => None
  end.

(** The integer [a] as a number of the standard library's IEEE 754
    specification. *)
Definition of_int (a : Z) : SpecFloat.spec_float :=
  match a with
  | Z0 => SpecFloat.S754_zero false
  | Zpos p => SpecFloat.S754_finite false p 0
  | Zneg p => SpecFloat.S754_finite true p 0
  end.

(** The result of [true_divide] and a number of that specification are
    the same value; an overflow stands for an infinity. *)
Definition same_value (x : result float) (y : SpecFloat.spec_float) : bool :=
  match x, y with
  | Ok x, SpecFloat.S754_zero s => Bool.eqb (neg x) s && (mant x =? 0)
  | Ok x, SpecFloat.S754_finite s m e =>
      let k := Z.min (expo x) e in
      Bool.eqb (neg x) s && (mant x * 2 ^ (expo x - k) =? Zpos m * 2 ^ (e - k))
  | Raise OverflowError, SpecFloat.S754_infinity _ => true
  | _, _ => false
  end.

(** [true_divide a b] is the binary64 division of that specification. *)
Definition agrees_with_binary64 (a b : Z) : bool :=
  same_value (true_divide a b) (SpecFloat.SFdiv 53 1024 (of_int a) (of_int b)).

(** Numerators and denominators to compare on: the small ones, and some
    around the ends of the binary64 range. *)
Definition comparison_grid : list Z :=
  (Z.of_nat <$> seq 1 64)
    ++ [1000000; 2 ^ 53 - 1; 2 ^ 53; 2 ^ 53 + 1; 2 ^ 53 + 3; 2 ^ 54 + 2;
        2 ^ 54 + 6; 10 ^ 30; 2 ^ 11 * 5 ^ 10; 2 ^ 1023 * 3; 2 ^ 1024;
        2 ^ 1024 - 2 ^ 970; 2 ^ 1024 - 2 ^ 970 - 1; 2 ^ 1074; 2 ^ 1073 + 1;
        3 * 2 ^ 1075; 2 ^ 2000 + 12345; -7; -100].

End PyFloat.

(** ** The string methods of the runtime *)

(** [str.upper].  Outside ASCII Python upper-cases by the Unicode
    tables (the e with an acute accent becomes the capital one, the sharp
    s becomes SS), and these tables are not part of this development: the
    method is taken as given, on the UTF-8 bytes of the string, and known
    to be [PyStrOps.upper] on the strings written in ASCII. *)
Class PythonRuntime : Type := {
  str_upper : string -> string;
  str_upper_ascii :
    forall s, PyStrOps.is_ascii s = true -> str_upper s = PyStrOps.upper s;
}.

(** ** Data model *)

(** [BaseTable] (sql_generic), the fields read here.  A row count is a
    natural number, or [None] when the catalog has no estimate. *)
Record BaseTable : Type := {
  name : string;
  rows_count : option N;
}.

(** [SnowflakeTable] extends [BaseTable]; [type] is ["BASE TABLE"],
    ["EXTERNAL TABLE"], ... or [None]. *)
Record SnowflakeTable : Type := {
  base :> BaseTable;
  type : option string;
}.

Record SnowflakeSchema : Type := {
  schema_name : string;
}.

Record SnowflakeDatabase : Type := {
  database_name : string;
  schemas : list SnowflakeSchema;
}.

(** The options of [config.profiling] this module reads.  The sample
    size is any integer the configuration holds, negative ones included;
    the row limit and the number of workers are natural numbers. *)
Record GEProfilingConfig : Type := {
  profile_external_tables : bool;
  use_sampling : bool;
  sample_size : Z;
  limit : option N;
  max_workers : N;
}.

(** [SnowflakeV2Config] without its mutable [options] dictionary, which
    lives in the world below.  [is_profiling_enabled] and
    [get_sql_alchemy_url] are methods of the configuration classes, taken
    as given. *)
Record SnowflakeV2Config : Type := {
  profiling : GEProfilingConfig;
  is_profiling_enabled : bool;
  username : option string;
  password : option string;
  role : option string;
  get_sql_alchemy_url :
    string -> option string -> option string -> option string -> string;
}.

(** [TableProfilerRequest]: the request built by the inherited
    [get_profile_request]. *)
Record TableProfilerRequest : Type := {
  pretty_name : string;
  batch_kwargs : gmap string PyVal;
  request_table : BaseTable;
}.

(** ** The collaborators *)

(** What lies outside this module: the methods [SnowflakeProfiler]
    inherits from [GenericProfiler] and [SnowflakeCommonMixin], the report
    methods, the Snowflake connector and SQLAlchemy.  Each is a function of
    the objects it can reach: the dictionary [config.options], the skip
    counters of the report and a state [Ext] of its own (the other report
    fields, the profiler service, the warehouse sessions).  Each may write
    any of them, and each may raise. *)
Class Collaborators : Type := {
  Ext : Type;
  MetadataWorkUnit : Type;
  ProfilerArgs : Type;
  Connection : Type;
  Cursor : Type;
  Engine : Type;
  SAConnection : Type;
  Inspector : Type;
  DatahubGEProfiler : Type;
  Shared : Type := (gmap string PyVal * gmap string Z * Ext)%type;
  platform : string;
  (* GenericProfiler *)
  get_profile_request :
    SnowflakeTable -> string -> string ->
    Shared -> result (option TableProfilerRequest) * Shared;
  generate_profile_workunits :
    list TableProfilerRequest -> N -> string -> string -> ProfilerArgs ->
    Shared -> result (list MetadataWorkUnit) * Shared;
  get_profile_args : ProfilerArgs;
  super_get_batch_kwargs : BaseTable -> string -> string -> gmap string PyVal;
  (* SnowflakeV2Report *)
  report_entity_profiled : string -> Shared -> result unit * Shared;
  (* SnowflakeV2Config, SnowflakeQuery, the connector *)
  get_connection : Shared -> result Connection * Shared;
  get_options : Shared -> result (gmap string PyVal) * Shared;
  use_database : string -> string;
  cursor : Connection -> Shared -> result Cursor * Shared;
  execute : Cursor -> string -> Shared -> result unit * Shared;
  (* SQLAlchemy and the Great Expectations profiler *)
  create_engine :
    string -> (Shared -> result Connection * Shared) -> gmap string PyVal ->
    Shared -> result Engine * Shared;
  connect : Engine -> Shared -> result SAConnection * Shared;
  inspect : SAConnection -> Shared -> result Inspector * Shared;
  bind : Inspector -> SAConnection;
  new_DatahubGEProfiler :
    SAConnection -> GEProfilingConfig -> string ->
    Shared -> result DatahubGEProfiler * Shared;
}.

(** ** Computations that mutate objects and may raise *)

(** A computation over a state [St]: it ends with a value or an exception,
    and the mutations made before an exception stay. *)
Definition M (St A : Type) : Type := St -> result A * St.

Global Instance M_ret {St} : MRet (M St) := fun A a st => (Ok a, st).

Global Instance M_bind {St} : MBind (M St) := fun A B f c st =>
  match c st with
  | (Ok a, st') => f a st'
  | (Raise e, st') => (Raise e, st')
  end.

Definition raise {St A} (e : PyExn) : M St A := fun st => (Raise e, st).

Section Profiler.

Context `{PythonRuntime} `{Collaborators}.

(** Log records and calls into the collaborators, in program order. *)
Inductive Event : Type :=
| LogInfo (msg : string)
| LogDebug (msg : string)
| CallGetProfileRequest (table : SnowflakeTable) (schema db : string)
| CallReportEntityProfiled (pretty : string)
| CallGenerateProfileWorkunits
    (requests : list TableProfilerRequest) (workers : N) (db pf : string)
| CallGetOptions
| CallCreateEngine (url : string)
| CallConnect
| CallInspect
| CallDatahubGEProfiler.

(** The objects a profiling pass mutates: [self.config.options], the
    skip counters [self.report.profiling_skipped_other], the state of the
    collaborators, and the trace of what was logged and called. *)
Record World : Type := {
  options : gmap string PyVal;
  profiling_skipped_other : gmap string Z;
  ext : Ext;
  trace : list Event;
}.

Definition shared_of (w : World) : Shared :=
  (options w, profiling_skipped_other w, ext w).

Definition emit (ev : Event) : M World unit := fun w =>
  (Ok tt, {| options := options w;
             profiling_skipped_other := profiling_skipped_other w;
             ext := ext w;
             trace := trace w ++ [ev] |}).

(** Run a collaborator on the objects it shares with this module. *)
Definition lift_shared {A} (op : M Shared A) : M World A := fun w =>
  let '(r, (opts, counters, e)) := op (shared_of w) in
  (r, {| options := opts;
         profiling_skipped_other := counters;
         ext := e;
         trace := trace w |}).

(** A call: the trace records it, then the collaborator runs. *)
Definition call {A} (ev : Event) (op : M Shared A) : M World A :=
  emit ev ;; lift_shared op.

(** [self.config.options.setdefault(key, value)] *)
Definition options_setdefault (key : string) (value : PyVal) : M World unit :=
  fun w =>
    match options w !! key with
    | Some _ => (Ok tt, w)
    | None => (Ok tt, {| options := <[key := value]> (options w);
                         profiling_skipped_other := profiling_skipped_other w;
                         ext := ext w;
                         trace := trace w |})
    end.

(** Modelled from the spec: the class of [self.report] is not in this
    module; the spec has a per-schema skip counter that is incremented.
    [self.report.profiling_skipped_other[key] += 1] on a counter dictionary
    whose missing keys read 0. *)
Definition increment (key : string) (counters : gmap string Z) : gmap string Z :=
  <[key := default 0 (counters !! key) + 1]> counters.

Definition skipped_other_increment (key : string) : M World unit := fun w =>
  (Ok tt, {| options := options w;
             profiling_skipped_other := increment key (profiling_skipped_other w);
             ext := ext w;
             trace := trace w |}).

(** [dict[key]], which raises [KeyError] on a missing key. *)
Definition getitem {St V} (d : gmap string V) (key : string) : M St V :=
  match d !! key with
  | Some v => mret v
  | None => raise (KeyError key)
  end.

(** A [for] loop that carries the local variables [acc] through. *)
Fixpoint for_each {St A B} (body : B -> A -> M St B) (acc : B) (l : list A)
  : M St B :=
  match l with
  | [] => mret acc
  | x :: l' => acc' ← body acc x; for_each body acc' l'
  end.

(** ** [SnowflakeProfiler] *)

(** The f-string of the sampling query:
    [select * from "db"."schema"."table" TABLESAMPLE (pc)]. *)
Definition sampling_query (db_name schema table_name : string)
  (sample_pc : PyFloat.float) : string :=
  ("select * from "
     +:+ PyStrOps.dquote +:+ db_name +:+ PyStrOps.dquote +:+ "."
     +:+ PyStrOps.dquote +:+ schema +:+ PyStrOps.dquote +:+ "."
     +:+ PyStrOps.dquote +:+ table_name +:+ PyStrOps.dquote
     +:+ " TABLESAMPLE (" +:+ PyFloat.format_8f sample_pc +:+ ")")%string.

(** The condition of the [if] in [get_batch_kwargs]:
    [not limit and use_sampling and rows_count and rows_count > sample_size]. *)
Definition sampling_applies (p : GEProfilingConfig) (table : BaseTable) : bool :=
  negb (truthy_opt_int (limit p))
  && use_sampling p
  && truthy_opt_int (rows_count table)
  && match rows_count table with
     | Some rows => sample_size p <? Z.of_N rows
     | None => false
     end.

(** The local variable [custom_sql] of [get_batch_kwargs] when the method
    reaches its [return]. *)
Definition custom_sql (p : GEProfilingConfig) (table : BaseTable)
  (schema db_name : string) : result (option string) :=
  if sampling_applies p table then
    match rows_count table with
    | Some rows =>
        match PyFloat.true_divide (100 * sample_size p) (Z.of_N rows) with
        | Ok sample_pc =>
            Ok (Some (sampling_query db_name schema (name table) sample_pc))
        | Raise e => Raise e
        end
    | None => Ok None
    end
  else Ok None.

Definition of_optional_str (o : option string) : PyVal :=
  match o with
  | Some s => PyStr s
  | None => PyNone
  end.

(** [SnowflakeProfiler.get_batch_kwargs]: the inherited kwargs with the
    keys [use_quoted_name] and [custom_sql] written over them. *)
Definition get_batch_kwargs (config : SnowflakeV2Config) (table : BaseTable)
  (schema db_name : string) : result (gmap string PyVal) :=
  match custom_sql (profiling config) table schema db_name with
  | Raise e => Raise e
  | Ok sql =>
      Ok (<["custom_sql" := of_optional_str sql]>
            (<["use_quoted_name" :=
                 PyBool (negb (String.eqb (name table) (str_upper (name table))))]>
               (super_get_batch_kwargs table schema db_name)))
  end.

(** The skip test of [get_workunits]:
    [not profile_external_tables and table.type == "EXTERNAL TABLE"]. *)
Definition external_table_excluded (p : GEProfilingConfig) (table : SnowflakeTable)
  : bool :=
  negb (profile_external_tables p)
  && match type table with
     | Some t => String.eqb t "EXTERNAL TABLE"
     | None => false
     end.

Definition skip_message (db_name schema table_name : string) : string :=
  ("Skipping profiling of external table "
     +:+ db_name +:+ "." +:+ schema +:+ "." +:+ table_name)%string.

(** The body of the inner loop of [get_workunits], for one table;
    [profile_requests] is the list built so far. *)
Definition collect_table (config : SnowflakeV2Config) (db_name schema : string)
  (profile_requests : list TableProfilerRequest) (table : SnowflakeTable)
  : M World (list TableProfilerRequest) :=
  if external_table_excluded (profiling config) table then
    emit (LogInfo (skip_message db_name schema (name table))) ;;
    skipped_other_increment schema ;;
    mret profile_requests
  else
    profile_request ←
      call (CallGetProfileRequest table schema db_name)
           (get_profile_request table schema db_name);
    match profile_request with
    | Some request =>
        call (CallReportEntityProfiled (pretty_name request))
             (report_entity_profiled (pretty_name request)) ;;
        mret (profile_requests ++ [request])
    | None => mret profile_requests
    end.

(** The body of the outer loop: [db_tables[schema.name]] and its tables. *)
Definition collect_schema (config : SnowflakeV2Config) (db_name : string)
  (db_tables : gmap string (list SnowflakeTable))
  (profile_requests : list TableProfilerRequest) (schema : SnowflakeSchema)
  : M World (list TableProfilerRequest) :=
  tables ← getitem db_tables (schema_name schema);
  for_each (collect_table config db_name (schema_name schema)) profile_requests tables.

(** The two loops of [get_workunits]: the requests to dispatch. *)
Definition collect (config : SnowflakeV2Config) (database : SnowflakeDatabase)
  (db_tables : gmap string (list SnowflakeTable))
  : M World (list TableProfilerRequest) :=
  for_each (collect_schema config (database_name database) db_tables)
    [] (schemas database).

(** The first statement of [get_workunits]. *)
Definition default_max_overflow (config : SnowflakeV2Config) : M World unit :=
  if is_profiling_enabled config then
    options_setdefault "max_overflow" (PyInt (Z.of_N (max_workers (profiling config))))
  else mret tt.

(** [SnowflakeProfiler.get_workunits], the generator run to its end: the
    work units it yields, in order. *)
Definition get_workunits (config : SnowflakeV2Config) (database : SnowflakeDatabase)
  (db_tables : gmap string (list SnowflakeTable))
  : M World (list MetadataWorkUnit) :=
  default_max_overflow config ;;
  profile_requests ← collect config database db_tables;
  if (length profile_requests =? 0)%nat then mret []
  else
    call (CallGenerateProfileWorkunits profile_requests
            (max_workers (profiling config)) (database_name database) platform)
         (generate_profile_workunits profile_requests
            (max_workers (profiling config)) (database_name database) platform
            get_profile_args).

(** The closure [get_db_connection] that [callable_for_db_connection]
    returns; it runs inside the connection pool. *)
Definition callable_for_db_connection (db_name : string) : M Shared Connection :=
  conn ← get_connection;
  cur ← cursor conn;
  execute cur (use_database db_name) ;;
  mret conn.

(** [SnowflakeProfiler.get_profiler_instance] *)
Definition get_profiler_instance (config : SnowflakeV2Config)
  (db_name : option string) : M World DatahubGEProfiler :=
  match db_name with
  | Some (String c s as db) =>
      let url := get_sql_alchemy_url config db
                   (username config) (password config) (role config) in
      emit (LogDebug ("sql_alchemy_url=" +:+ url)) ;;
      opts ← call CallGetOptions get_options;
      engine ← call (CallCreateEngine url)
                 (create_engine url (callable_for_db_connection db) opts);
      conn ← call CallConnect (connect engine);
      inspector ← call CallInspect (inspect conn);
      call CallDatahubGEProfiler
        (new_DatahubGEProfiler (bind inspector) (profiling config) platform)
  | _ => raise AssertionError
  end.

End Profiler.

(** ** What a pass leaves behind *)

Section Observations.

Context `{PythonRuntime} `{Collaborators}.

(** The tables of the catalog snapshot in the order the two loops visit
    them, each with the name of its schema. *)
Definition visited (database : SnowflakeDatabase)
  (db_tables : gmap string (list SnowflakeTable))
  : list (string * SnowflakeTable) :=
  flat_map (fun schema =>
              pair (schema_name schema)
                <$> default [] (db_tables !! schema_name schema))
           (schemas database).

(** What one table comes to in the loop body: the skip branch, a request
    from [get_profile_request], or [None] from it. *)
Inductive Outcome : Type :=
| Skipped
| Requested (request : TableProfilerRequest)
| Declined.

Definition outcome_request (o : Outcome) : option TableProfilerRequest :=
  match o with
  | Requested request => Some request
  | Skipped | Declined => None
  end.

Definition is_skipped (o : Outcome) : bool :=
  match o with
  | Skipped => true
  | Requested _ | Declined => false
  end.


(** What the loop body logs and calls for a table with that outcome. *)
Definition outcome_events (db_name : string) (entry : string * SnowflakeTable)
  (o : Outcome) : list Event :=
  let '(schema, table) := entry in
  match o with
  | Skipped => [LogInfo (skip_message db_name schema (name table))]
  | Requested request =>
      [CallGetProfileRequest table schema db_name;
       CallReportEntityProfiled (pretty_name request)]
  | Declined => [CallGetProfileRequest table schema db_name]
  end.

(** The outcome agrees with the skip test on the table. *)
Definition outcome_fits (p : GEProfilingConfig) (entry : string * SnowflakeTable)
  (o : Outcome) : Prop :=
  is_skipped o = external_table_excluded p (snd entry).

(** The events of a whole pass over [entries] with these outcomes. *)
Fixpoint pass_events (db_name : string) (entries : list (string * SnowflakeTable))
  (outcomes : list Outcome) : list Event :=
  match entries, outcomes with
  | entry :: entries', o :: outcomes' =>
      outcome_events db_name entry o ++ pass_events db_name entries' outcomes'
  | _, _ => []
  end.

(** The skips of one schema among the outcomes of a pass. *)
Fixpoint skips_of (schema : string) (entries : list (string * SnowflakeTable))
  (outcomes : list Outcome) : Z :=
  match entries, outcomes with
  | entry :: entries', o :: outcomes' =>
      (if is_skipped o && String.eqb (fst entry) schema then 1 else 0)
      + skips_of schema entries' outcomes'
  | _, _ => 0
  end.

(** The calls of the batch-execution entry point in a trace. *)
Definition is_dispatch (ev : Event) : bool :=
  match ev with
  | CallGenerateProfileWorkunits _ _ _ _ => true
  | _ => false
  end.

Definition dispatches (t : list Event) : list Event := List.filter is_dispatch t.

(** A collaborator that leaves the skip counters as they are. *)
Definition leaves_counters {A} (op : M Shared A) : Prop :=
  forall opts counters e, snd (fst (snd (op (opts, counters, e)))) = counters.

(** A collaborator that leaves one key of [config.options] as it is. *)
Definition keeps_option {A} (key : string) (op : M Shared A) : Prop :=
  forall opts counters e,
    fst (fst (snd (op (opts, counters, e)))) !! key = opts !! key.

(** The counter of a schema, 0 when the dictionary has no entry for it. *)
Definition counter (counters : gmap string Z) (schema : string) : Z :=
  default 0 (counters !! schema).

End Observations.

(** ** A small warehouse to run the profiler on *)

Module Sample.

(** The sessions opened so far and the statements executed, each with the
    session it ran on. *)
Record Warehouse : Type := {
  sessions : nat;
  statements : list (nat * string);
}.

Definition SharedState : Type :=
  (gmap string PyVal * gmap string Z * Warehouse)%type.

Definition open_session : M SharedState nat := fun '(opts, counters, wh) =>
  (Ok (sessions wh),
   (opts, counters,
    {| sessions := S (sessions wh); statements := statements wh |})).

Definition run_statement (cur : nat) (sql : string) : M SharedState unit :=
  fun '(opts, counters, wh) =>
    (Ok tt,
     (opts, counters,
      {| sessions := sessions wh; statements := statements wh ++ [(cur, sql)] |})).

(** The [get_options] of the sample.  Like the method of the
    configuration, which lies outside this module, it writes an entry
    [connect_args] into the options before it returns them. *)
Definition write_connect_args : M SharedState (gmap string PyVal) :=
  fun '(opts, counters, wh) =>
    let opts' := <["connect_args" := PyDict []]> opts in
    (Ok opts', (opts', counters, wh)).

(** The runtime of the sample, whose names are all written in ASCII:
    [PyStrOps.upper] stands for [str.upper]. *)
#[export] Instance runtime : PythonRuntime := {|
  str_upper := PyStrOps.upper;
  str_upper_ascii := fun s _ => eq_refl;
|}.

(** A request for every table that has a row-count estimate, none for the
    others. *)
Definition request_for (table : SnowflakeTable) (schema db_name : string)
  : option TableProfilerRequest :=
  match rows_count table with
  | Some _ =>
      Some {| pretty_name := (db_name +:+ "." +:+ schema +:+ "." +:+ name table)%string;
              batch_kwargs := ∅;
              request_table := table |}
  | None => None
  end.

#[export] Instance collaborators : Collaborators := {|
  Ext := Warehouse;
  MetadataWorkUnit := string;
  ProfilerArgs := unit;
  Connection := nat;
  Cursor := nat;
  Engine := M SharedState nat;
  SAConnection := nat;
  Inspector := nat;
  DatahubGEProfiler := nat;
  platform := "snowflake";
  get_profile_request := fun table schema db_name st =>
    (Ok (request_for table schema db_name), st);
  generate_profile_workunits := fun requests _ _ _ _ st =>
    (Ok (pretty_name <$> requests), snd (write_connect_args st));
  get_profile_args := tt;
  super_get_batch_kwargs := fun table schema _ =>
    <["schema" := PyStr schema]> {["table" := PyStr (name table)]};
  report_entity_profiled := fun _ st => (Ok tt, st);
  get_connection := open_session;
  get_options := write_connect_args;
  use_database := fun db_name =>
    ("use database " +:+ PyStrOps.dquote +:+ db_name +:+ PyStrOps.dquote)%string;
  cursor := fun conn st => (Ok conn, st);
  execute := run_statement;
  create_engine := fun _ creator _ st => (Ok creator, st);
  connect := fun engine => engine;
  inspect := fun conn st => (Ok conn, st);
  bind := fun inspector => inspector;
  new_DatahubGEProfiler := fun conn _ _ st => (Ok conn, st);
|}.

Definition empty_warehouse : Warehouse := {| sessions := 0; statements := [] |}.

Definition empty_world : World :=
  {| options := ∅; profiling_skipped_other := ∅; ext := empty_warehouse; trace := [] |}.

Definition profiling_config : GEProfilingConfig :=
  {| profile_external_tables := false;
     use_sampling := true;
     sample_size := 10000;
     limit := None;
     max_workers := 20%N |}.

Definition config_of (p : GEProfilingConfig) : SnowflakeV2Config :=
  {| profiling := p;
     is_profiling_enabled := true;
     username := Some "ingest"%string;
     password := None;
     role := None;
     get_sql_alchemy_url := fun db _ _ _ => ("snowflake://account/" +:+ db)%string |}.

Definition config : SnowflakeV2Config := config_of profiling_config.

Definition table_of (table_name : string) (kind : string) (rows : option N)
  : SnowflakeTable :=
  {| base := {| name := table_name; rows_count := rows |}; type := Some kind |}.

(** A catalog snapshot: one schema with an external table, an ordinary
    table and a table without a row-count estimate. *)
Definition external_table : SnowflakeTable :=
  table_of "EXT_SALES" "EXTERNAL TABLE" (Some 500%N).

Definition orders : SnowflakeTable :=
  table_of "ORDERS" "BASE TABLE" (Some 1000000%N).

Definition events : SnowflakeTable :=
  table_of "EVENTS" "BASE TABLE" None.

Definition t_lower : SnowflakeTable :=
  table_of "t_lower" "BASE TABLE" (Some 10%N).

Definition T_UPPER : SnowflakeTable :=
  table_of "T_UPPER" "BASE TABLE" (Some 10%N).

Definition database : SnowflakeDatabase :=
  {| database_name := "DB"; schemas := [ {| schema_name := "PUBLIC" |} ] |}.

Definition catalog (tables : list SnowflakeTable)
  : gmap string (list SnowflakeTable) :=
  {[ "PUBLIC"%string := tables ]}.

(** A configuration with a [limit] of zero. *)
Definition zero_limit : GEProfilingConfig :=
  {| profile_external_tables := false;
     use_sampling := true;
     sample_size := 10000;
     limit := Some 0%N;
     max_workers := 20%N |}.

(** A configuration with a [limit] of a thousand rows. *)
Definition limit_1000 : GEProfilingConfig :=
  {| profile_external_tables := false;
     use_sampling := true;
     sample_size := 10000;
     limit := Some 1000%N;
     max_workers := 20%N |}.

(** The kwargs of a table of schema PUBLIC in database DB, empty when
    [get_batch_kwargs] raises. *)
Definition kwargs_of (p : GEProfilingConfig) (table : BaseTable)
  : gmap string PyVal :=
  match get_batch_kwargs (config_of p) table "PUBLIC" "DB" with
  | Ok kwargs => kwargs
  | Raise _ => ∅
  end.

(** The text [select * from "DB"."PUBLIC"."table" TABLESAMPLE (fraction)]. *)
Definition query_text (table_name fraction : string) : string :=
  ("select * from "
     +:+ PyStrOps.dquote +:+ "DB" +:+ PyStrOps.dquote +:+ "."
     +:+ PyStrOps.dquote +:+ "PUBLIC" +:+ PyStrOps.dquote +:+ "."
     +:+ PyStrOps.dquote +:+ table_name +:+ PyStrOps.dquote
     +:+ " TABLESAMPLE (" +:+ fraction +:+ ")")%string.

Definition clicks : SnowflakeTable :=
  table_of "CLICKS" "BASE TABLE" (Some 40000%N).

(** The two loops over the schema PUBLIC holding [tables], from the empty
    world, and the pending list they return. *)
Definition run_collect (tables : list SnowflakeTable)
  : result (list TableProfilerRequest) * World :=
  collect config database (catalog tables) empty_world.

Definition pending (tables : list SnowflakeTable) : list TableProfilerRequest :=
  match fst (run_collect tables) with
  | Ok requests => requests
  | Raise _ => []
  end.

(** A whole pass over the schema PUBLIC holding [tables]. *)
Definition run_pass (tables : list SnowflakeTable) (w : World)
  : result (list string) * World :=
  get_workunits config database (catalog tables) w.

(** What the collaborators share before any session, and after one
    session on which the statement that selects DB has run. *)
Definition empty_shared : SharedState := (∅, ∅, empty_warehouse).

Definition shared_after_use_database : SharedState :=
  (∅, ∅, {| sessions := 1;
            statements := [(0%nat, use_database "DB")] |}).

(** A world whose options already hold a [max_overflow] of 1. *)
Definition world_with_overflow : World :=
  {| options := {[ "max_overflow"%string := PyInt 1 ]};
     profiling_skipped_other := ∅;
     ext := empty_warehouse;
     trace := [] |}.

End Sample.

(** ** Further observations *)

Module PyStrChecks.

(** A decimal digit, code 48 to 57. *)
Definition is_digit (c : ascii) : bool :=
  let n := nat_of_ascii c in (48 <=? n)%nat && (n <=? 57)%nat.

Fixpoint all_digits (s : string) : bool :=
  match s with
  | EmptyString => true
  | String c s' => is_digit c && all_digits s'
  end.

End PyStrChecks.

Section CallsAndRecords.

Context `{PythonRuntime} `{Collaborators}.

(** The tables [get_profile_request] was called on, in the order of the
    calls, each with its schema. *)
Definition profile_request_call (ev : Event) : option (string * SnowflakeTable) :=
  match ev with
  | CallGetProfileRequest table schema _ => Some (schema, table)
  | _ => None
  end.

Definition profile_request_calls (t : list Event) : list (string * SnowflakeTable) :=
  omap profile_request_call t.

(** The messages logged at info level, in order. *)
Definition info_record (ev : Event) : option string :=
  match ev with
  | LogInfo msg => Some msg
  | _ => None
  end.

Definition info_records (t : list Event) : list string := omap info_record t.

(** The skip test on a table of the snapshot. *)
Definition is_excluded_entry (p : GEProfilingConfig)
  (entry : string * SnowflakeTable) : bool :=
  external_table_excluded p (snd entry).

(** The excluded external tables of one schema among [entries]. *)
Fixpoint excluded_in (p : GEProfilingConfig) (schema : string)
  (entries : list (string * SnowflakeTable)) : Z :=
  match entries with
  | [] => 0
  | entry :: entries' =>
      (if is_excluded_entry p entry && String.eqb (fst entry) schema then 1 else 0)
      + excluded_in p schema entries'
  end.

(** The info record of the skip of a table of the snapshot. *)
Definition skip_record (db_name : string) (entry : string * SnowflakeTable)
  : string :=
  skip_message db_name (fst entry) (name (snd entry)).

End CallsAndRecords.

(** The two statements the module runs when it is imported:
    [snowdialect.ischema_names["GEOGRAPHY"] = sqltypes.NullType] and the
    same for ["GEOMETRY"]. *)
Module Dialect.

(** The SQLAlchemy type classes a dialect maps type names to: [NullType]
    and the others, by name. *)
Inductive SqlType : Type :=
| NullType
| NamedType (class_name : string).

Definition register_null_types (ischema_names : gmap string SqlType)
  : gmap string SqlType :=
  <["GEOMETRY" := NullType]> (<["GEOGRAPHY" := NullType]> ischema_names).

End Dialect.

(** More of the sample: configurations, a table and a database for the
    further properties. *)
Module FurtherSample.

Import Sample.

(** External tables allowed. *)
Definition allowing : SnowflakeV2Config :=
  config_of {| profile_external_tables := true;
               use_sampling := true;
               sample_size := 10000;
               limit := None;
               max_workers := 20%N |}.

(** Five workers instead of twenty. *)
Definition five_workers : SnowflakeV2Config :=
  config_of {| profile_external_tables := false;
               use_sampling := true;
               sample_size := 10000;
               limit := None;
               max_workers := 5%N |}.

Definition huge : SnowflakeTable :=
  table_of "HUGE" "BASE TABLE" (Some (10 ^ 15)%N).

(** A negative sample size, which the configuration accepts, against a
    table of five rows; and one so far below zero that the quotient does
    not fit a float. *)
Definition negative_sample : GEProfilingConfig :=
  {| profile_external_tables := false;
     use_sampling := true;
     sample_size := -5;
     limit := None;
     max_workers := 20%N |}.

Definition far_below_zero : GEProfilingConfig :=
  {| profile_external_tables := false;
     use_sampling := true;
     sample_size := - 2 ^ 1030;
     limit := None;
     max_workers := 20%N |}.

Definition five_rows : SnowflakeTable :=
  table_of "FIVE" "BASE TABLE" (Some 5%N).

(** The database DB with a second schema, which the catalog does not
    hold. *)
Definition public : SnowflakeSchema := {| schema_name := "PUBLIC" |}.

Definition staging : SnowflakeSchema := {| schema_name := "STAGING" |}.

Definition two_schemas : SnowflakeDatabase :=
  {| database_name := "DB"; schemas := [public] ++ staging :: [] |}.

(** The two loops under a configuration, from the empty world, and their
    pending list. *)
Definition run_collect_with (cfg : SnowflakeV2Config) (tables : list SnowflakeTable)
  : result (list TableProfilerRequest) * World :=
  collect cfg database (catalog tables) empty_world.

Definition pending_with (cfg : SnowflakeV2Config) (tables : list SnowflakeTable)
  : list TableProfilerRequest :=
  match fst (run_collect_with cfg tables) with
  | Ok requests => requests
  | Raise _ => []
  end.

End FurtherSample.

(** * Properties *)

(** ** Upper-casing *)

Lemma upper_ascii_fixed (c : ascii) :
  PyStrOps.upper_ascii c = c <-> PyStrOps.is_lower_ascii c = false.
Proof.
  destruct c as [[] [] [] [] [] [] [] []]; vm_compute; split; congruence.
Qed.

Lemma upper_fixed (s : string) :
  PyStrOps.upper s = s <-> PyStrOps.has_lower s = false.
Proof.
  induction s as [|c s IH]; simpl.
  - tauto.
  - rewrite orb_false_iff, <- IH, <- upper_ascii_fixed.
    split.
    + intros Heq. injection Heq. auto.
    + intros [-> ->]. reflexivity.
Qed.

Example upper_t_lower : PyStrOps.upper "t_lower" = "T_LOWER"%string.
Proof. reflexivity. Qed.

Example upper_T_UPPER : PyStrOps.upper "T_UPPER" = "T_UPPER"%string.
Proof. reflexivity. Qed.

(** ** The batch kwargs *)

Section BatchKwargs.

Context `{PythonRuntime} `{Collaborators}.

Lemma get_batch_kwargs_Ok config table schema db_name kwargs :
  get_batch_kwargs config table schema db_name = Ok kwargs ->
  exists sql,
    custom_sql (profiling config) table schema db_name = Ok sql
    /\ kwargs !! "custom_sql"%string = Some (of_optional_str sql)
    /\ kwargs !! "use_quoted_name"%string
       = Some (PyBool (negb (String.eqb (name table) (str_upper (name table))))).
Proof.
  unfold get_batch_kwargs.
  destruct (custom_sql _ _ _ _) as [sql|e]; [|discriminate].
  intros [= <-]. exists sql. split; [reflexivity|].
  split.
  - apply lookup_insert_eq.
  - rewrite lookup_insert_ne by discriminate. apply lookup_insert_eq.
Qed.

Lemma custom_sql_not_applicable p table schema db_name :
  sampling_applies p table = false ->
  custom_sql p table schema db_name = Ok None.
Proof. unfold custom_sql. intros ->. reflexivity. Qed.

Lemma sampling_applies_false_iff p table :
  sampling_applies p table = false <->
  rows_count table = None
  \/ rows_count table = Some 0%N
  \/ (exists rows, rows_count table = Some rows /\ Z.of_N rows <= sample_size p)
  \/ use_sampling p = false
  \/ (exists n, limit p = Some n /\ n <> 0%N).
Proof.
  unfold sampling_applies, truthy_opt_int. split.
  - intros Hf.
    destruct (rows_count table) as [rows|]; [|left; reflexivity].
    destruct (N.eq_dec rows 0%N) as [->|Hrows]; [right; left; reflexivity|].
    destruct (Z.leb_spec (Z.of_N rows) (sample_size p)) as [Hle|Hgt];
      [right; right; left; eauto|].
    destruct (use_sampling p); [|tauto].
    apply N.eqb_neq in Hrows. apply Z.ltb_lt in Hgt.
    rewrite Hrows, Hgt in Hf.
    destruct (limit p) as [n|] eqn:Hl; rewrite ?Hl in Hf; [|discriminate].
    destruct (N.eq_dec n 0%N) as [Hn|Hn]; [subst n; discriminate|].
    do 4 right. eauto.
  - intros [Hr|[Hr|[(rows & Hr & Hle)|[Hu|(n & Hl & Hn)]]]].
    + rewrite Hr. apply andb_false_r.
    + rewrite Hr. simpl. rewrite andb_false_r. reflexivity.
    + rewrite Hr. apply Z.ltb_ge in Hle. rewrite Hle. apply andb_false_r.
    + rewrite Hu. rewrite andb_false_r. reflexivity.
    + rewrite Hl. apply N.eqb_neq in Hn. rewrite Hn. reflexivity.
Qed.

(** Where sampling applies the row count is known, is not zero and
    exceeds the sample size. *)
Lemma sampling_applies_rows (p : GEProfilingConfig) (table : BaseTable) :
  sampling_applies p table = true ->
  exists rows,
    rows_count table = Some rows /\ rows <> 0%N /\ sample_size p < Z.of_N rows.
Proof.
  unfold sampling_applies, truthy_opt_int. intros Happ.
  destruct (rows_count table) as [rows|]; [|rewrite andb_false_r in Happ; discriminate].
  apply andb_true_iff in Happ as [Happ Hlt]. apply Z.ltb_lt in Hlt.
  apply andb_true_iff in Happ as [_ Hrows].
  apply negb_true_iff, N.eqb_neq in Hrows. eauto.
Qed.

End BatchKwargs.

(** ** Integer true division and the [.8f] conversion *)

Module PyFloatFacts.

Import PyFloat.

(** On the grid, [true_divide] is the division of the standard library's
    IEEE 754 specification at precision 53 and maximal exponent 1024. *)
Example true_divide_is_binary64_division :
  forallb (fun a => forallb (agrees_with_binary64 a) comparison_grid)
    comparison_grid = true.
Proof. vm_compute. reflexivity. Qed.

(** Renderings as CPython prints them, ties and signs included. *)
Example render_quotient_examples :
  render_quotient (100 * 10000) 1000000 = Some "1.00000000"%string
  /\ render_quotient 100 3 = Some "33.33333333"%string
  /\ render_quotient 200 3 = Some "66.66666667"%string
  /\ render_quotient (100 * 10000) 10001 = Some "99.99000100"%string
  /\ render_quotient (100 * 10000) 123456789012 = Some "0.00000810"%string
  /\ render_quotient 100 (2 * 10 ^ 10) = Some "0.00000001"%string
  /\ render_quotient 300 (2 * 10 ^ 10) = Some "0.00000001"%string
  /\ render_quotient (-1) (10 ^ 12) = Some "-0.00000000"%string
  /\ render_quotient (10 ^ 22) 1
     = Some "10000000000000000000000.00000000"%string
  /\ render_quotient (2 ^ 1024) 1 = None
  /\ render_quotient 5 0 = None.
Proof. vm_compute. repeat split; reflexivity. Qed.

(** Rounding to nearest moves a quotient by at most one half. *)
Lemma round_half_even_near (n d : Z) :
  0 < d -> Z.abs (2 * (round_half_even n d * d) - 2 * n) <= d.
Proof.
  intros Hd. unfold round_half_even.
  pose proof (Z.div_mod n d ltac:(lia)) as Hdm.
  pose proof (Z.mod_pos_bound n d Hd) as Hr.
  destruct (Z.ltb_spec (2 * (n mod d)) d);
    [|destruct (Z.ltb_spec d (2 * (n mod d))); [|destruct (Z.even (n / d))]];
    nia.
Qed.

Lemma round_half_even_nonneg (n d : Z) :
  0 <= n -> 0 < d -> 0 <= round_half_even n d.
Proof.
  intros Hn Hd. unfold round_half_even.
  pose proof (Z.div_pos n d Hn Hd).
  repeat match goal with |- context [if ?c then _ else _] => destruct c end; lia.
Qed.

(** A quotient below 128 has a binary64 exponent of at most -46. *)
Lemma quotient_exponent_small (a b : Z) :
  0 < a -> 0 < b -> a < 128 * b -> quotient_exponent a b <= -46.
Proof.
  intros Ha Hb Hab. unfold quotient_exponent.
  pose proof (Z.log2_spec b Hb) as [_ Hbu].
  pose proof (Z.log2_nonneg b) as Hlb.
  assert (Z.log2 a < Z.log2 b + 8) as Hd.
  { apply Z.log2_lt_pow2; [lia|].
    replace (Z.log2 b + 8) with (Z.succ (Z.log2 b) + 7) by lia.
    rewrite Z.pow_add_r by lia. change (2 ^ 7) with 128. lia. }
  destruct (Z.leb_spec 0 (Z.log2 a - Z.log2 b)) as [Hpos|Hneg].
  - destruct (Z.leb_spec (b * 2 ^ (Z.log2 a - Z.log2 b)) a) as [Habove|_]; [|lia].
    assert (Z.log2 a - Z.log2 b <> 7); [|lia].
    intros Heq. rewrite Heq in Habove. change (2 ^ 7) with 128 in Habove. lia.
  - destruct (b <=? a * 2 ^ (- (Z.log2 a - Z.log2 b))); lia.
Qed.

(** The true quotient of a small ratio: it is returned, it is not
    negative, and its distance to [a / b] is at most half a unit of its
    last binary place. *)
Lemma true_divide_small (a b : Z) :
  0 <= a -> 0 < b -> a < 128 * b ->
  exists m e,
    true_divide a b = Ok (Float false m e)
    /\ e <= 0 /\ 0 <= m
    /\ (a <> 0 -> e <= -46)
    /\ Z.abs (2 * (m * b) - 2 * (a * 2 ^ (- e))) <= b.
Proof.
  intros Ha Hb Hab. unfold true_divide.
  destruct (Z.eqb_spec b 0) as [?|_]; [lia|].
  replace (a <? 0) with false by (symmetry; apply Z.ltb_ge; lia).
  replace (b <? 0) with false by (symmetry; apply Z.ltb_ge; lia).
  destruct (Z.eqb_spec a 0) as [->|Hne].
  - exists 0, 0. repeat split; simpl; lia.
  - rewrite (Z.abs_eq a), (Z.abs_eq b) by lia.
    pose proof (quotient_exponent_small a b ltac:(lia) Hb Hab) as He.
    set (e := quotient_exponent a b) in *.
    replace (0 <=? e) with false by (symmetry; apply Z.leb_gt; lia).
    simpl. exists (scaled_quotient a b e), e.
    assert (0 < 2 ^ (- e)) by (apply Z.pow_pos_nonneg; lia).
    unfold scaled_quotient.
    replace (0 <=? e) with false by (symmetry; apply Z.leb_gt; lia).
    repeat split; try lia.
    + apply round_half_even_nonneg; nia.
    + apply round_half_even_near. exact Hb.
Qed.

(** The eight-digit rendering of such a quotient is within
    [1/2 + 10^8 / 2^47] units of the eighth decimal of [a / b]. *)
Lemma scaled_decimal_near (a b m e : Z) :
  0 <= a -> 0 < b -> e <= 0 -> 0 <= m -> (a <> 0 -> e <= -46) ->
  Z.abs (2 * (m * b) - 2 * (a * 2 ^ (- e))) <= b ->
  let n := scaled_decimal 8 (Float false m e) in
  0 <= n
  /\ 2 ^ 46 * Z.abs (2 * (n * b) - 2 * (10 ^ 8 * a)) <= b * (2 ^ 46 + 10 ^ 8).
Proof.
  intros Ha Hb He Hm Hsmall Hnear n. subst n. unfold scaled_decimal. simpl.
  destruct (Z.eq_dec a 0) as [->|Hne].
  - assert (m = 0) as -> by nia.
    assert (forall d, 0 < d -> round_half_even 0 d = 0) as Hzero.
    { intros d Hd.
      pose proof (round_half_even_near 0 d Hd).
      pose proof (round_half_even_nonneg 0 d ltac:(lia) Hd). nia. }
    destruct (0 <=? e); [simpl; lia|].
    rewrite Z.mul_0_l, Hzero by (apply Z.pow_pos_nonneg; lia).
    simpl. lia.
  - specialize (Hsmall Hne).
    replace (0 <=? e) with false by (symmetry; apply Z.leb_gt; lia).
    set (E := 2 ^ (- e)) in *.
    assert (2 ^ 46 <= E) as HE by (apply Z.pow_le_mono_r; lia).
    assert (0 < E) by lia.
    pose proof (round_half_even_near (m * 10 ^ 8) E ltac:(lia)) as Hn.
    pose proof (round_half_even_nonneg (m * 10 ^ 8) E ltac:(lia) ltac:(lia)) as Hn0.
    set (n := round_half_even (m * 10 ^ 8) E) in *.
    split; [exact Hn0|].
    set (p46 := 2 ^ 46) in *. set (t8 := 10 ^ 8) in *.
    assert (0 < t8) by (subst t8; lia).
    set (X := 2 * (n * b) - 2 * (t8 * a)).
    assert (- (E * b + t8 * b) <= E * X <= E * b + t8 * b) as HX.
    { assert (E * X = b * (2 * (n * E) - 2 * (m * t8))
                      + t8 * (2 * (m * b) - 2 * (a * E))) as -> by (subst X; ring).
      nia. }
    destruct (Z_le_gt_dec (Z.abs X) b) as [Hle|Hgt]; [nia|].
    assert ((Z.abs X - b) * p46 <= (Z.abs X - b) * E) by nia.
    assert (E * Z.abs X <= E * b + t8 * b) by (destruct (Z.abs_spec X); nia).
    nia.
Qed.

End PyFloatFacts.

(** ** Strings of digits *)

Lemma length_append (s1 s2 : string) :
  String.length (s1 +:+ s2) = (String.length s1 + String.length s2)%nat.
Proof. induction s1 as [|c s1 IH]; simpl; [reflexivity|]. rewrite IH. reflexivity. Qed.

Lemma length_low_digits (width : nat) (n : Z) :
  String.length (PyStrOps.low_digits width n) = width.
Proof.
  revert n. induction width as [|w IH]; intros n; simpl; [reflexivity|].
  rewrite length_append, IH. simpl. lia.
Qed.

(** ** Sampling and quoting in [get_batch_kwargs] *)

Section Sampling.

Context `{PythonRuntime} `{Collaborators}.

(** With a sample size that is not negative the guard keeps the
    division safe: [get_batch_kwargs] returns. *)
Lemma get_batch_kwargs_returns config table schema db_name :
  0 <= sample_size (profiling config) ->
  exists kwargs, get_batch_kwargs config table schema db_name = Ok kwargs.
Proof.
  intros Hnonneg. unfold get_batch_kwargs, custom_sql.
  destruct (sampling_applies (profiling config) table) eqn:Happ; [|eauto].
  destruct (sampling_applies_rows _ _ Happ) as (rows & -> & Hrows & Hlt).
  destruct (PyFloatFacts.true_divide_small
              (100 * sample_size (profiling config)) (Z.of_N rows))
    as (m & e & -> & _); try lia.
  eauto.
Qed.


(** C5.  The kwargs carry [use_quoted_name = True] exactly when the name
    of the table differs from its upper-cased form, [str.upper] being
    the runtime's, Unicode included.  For a name written in ASCII that is
    exactly when it holds a lower-case letter: a name entirely in upper
    case gets [False].  The kwargs are returned whenever the sample size
    is not negative. *)
Theorem use_quoted_name_iff_not_upper
  (config : SnowflakeV2Config) (table : BaseTable) (schema db_name : string) :
  (0 <= sample_size (profiling config) ->
   exists kwargs, get_batch_kwargs config table schema db_name = Ok kwargs)
  /\ forall kwargs,
       get_batch_kwargs config table schema db_name = Ok kwargs ->
       exists flag,
         kwargs !! "use_quoted_name"%string = Some (PyBool flag)
         /\ (flag = true <-> name table <> str_upper (name table))
         /\ (flag = false <-> str_upper (name table) = name table)
         /\ (PyStrOps.is_ascii (name table) = true ->
             (flag = false <-> PyStrOps.has_lower (name table) = false)).
Proof.
  split; [apply get_batch_kwargs_returns|].
  intros kwargs Hk.
  destruct (get_batch_kwargs_Ok _ _ _ _ _ Hk) as (sql & _ & _ & Hflag).
  eexists. split; [exact Hflag|].
  assert (negb (String.eqb (name table) (str_upper (name table))) = false
          <-> str_upper (name table) = name table) as Hfixed.
  { rewrite negb_false_iff, String.eqb_eq. split; congruence. }
  split; [|split].
  - rewrite negb_true_iff. apply String.eqb_neq.
  - exact Hfixed.
  - intros Hascii. rewrite Hfixed, (str_upper_ascii _ Hascii).
    apply upper_fixed.
Qed.

(** C3, as the code has it.  A [limit] other than zero turns sampling off:
    the kwargs are returned and their [custom_sql] is [None], whatever the
    row count and [use_sampling]. *)
Theorem nonzero_limit_disables_sampling
  (config : SnowflakeV2Config) (table : BaseTable) (schema db_name : string)
  (n : N) :
  limit (profiling config) = Some n -> n <> 0%N ->
  exists kwargs,
    get_batch_kwargs config table schema db_name = Ok kwargs
    /\ kwargs !! "custom_sql"%string = Some PyNone.
Proof.
  intros Hl Hn.
  assert (sampling_applies (profiling config) table = false) as Happ.
  { apply sampling_applies_false_iff. do 4 right. eauto. }
  unfold get_batch_kwargs.
  rewrite (custom_sql_not_applicable _ _ _ _ Happ).
  eexists. split; [reflexivity|]. apply lookup_insert_eq.
Qed.

(** C8, as the code has it.  When the row-count estimate is missing or
    zero, or does not exceed [sample_size], or [use_sampling] is off, or
    a [limit] other than zero is set, the kwargs are the inherited ones
    with [use_quoted_name] and a [custom_sql] of [None]; and these are
    all the cases without a sampling query. *)
Theorem no_sampling_leaves_custom_sql_unset
  (config : SnowflakeV2Config) (table : BaseTable) (schema db_name : string) :
  (rows_count table = None
   \/ rows_count table = Some 0%N
   \/ (exists rows, rows_count table = Some rows
                    /\ Z.of_N rows <= sample_size (profiling config))
   \/ use_sampling (profiling config) = false
   \/ (exists n, limit (profiling config) = Some n /\ n <> 0%N))
  <-> (exists kwargs,
         get_batch_kwargs config table schema db_name = Ok kwargs
         /\ kwargs !! "custom_sql"%string = Some PyNone).
Proof.
  rewrite <- sampling_applies_false_iff. split.
  - intros Happ. unfold get_batch_kwargs.
    rewrite (custom_sql_not_applicable _ _ _ _ Happ).
    eexists. split; [reflexivity|]. apply lookup_insert_eq.
  - intros (kwargs & Hk & Hsql).
    destruct (get_batch_kwargs_Ok _ _ _ _ _ Hk) as (sql & Hcustom & Hsql' & _).
    rewrite Hsql in Hsql'. unfold custom_sql in Hcustom.
    destruct (sampling_applies (profiling config) table) eqn:Happ; [|reflexivity].
    exfalso.
    destruct (rows_count table) as [rows|] eqn:Hrows.
    + destruct (PyFloat.true_divide _ _); [|discriminate].
      injection Hcustom as <-. discriminate.
    + unfold sampling_applies in Happ. rewrite Hrows in Happ.
      rewrite andb_false_r in Happ. discriminate.
Qed.

End Sampling.

(** ** The collect phase *)

Section Collect.

Context `{PythonRuntime} `{Collaborators}.

Ltac run_M := unfold mbind, M_bind, mret, M_ret, raise in *; simpl in *.

(** The loop body on a table that passes the skip test. *)
Lemma collect_table_excluded config db_name schema requests table w :
  external_table_excluded (profiling config) table = true ->
  collect_table config db_name schema requests table w
  = (Ok requests,
     {| options := options w;
        profiling_skipped_other := increment schema (profiling_skipped_other w);
        ext := ext w;
        trace := trace w ++ [LogInfo (skip_message db_name schema (name table))] |}).
Proof. intros Hex. unfold collect_table. rewrite Hex. reflexivity. Qed.

(** A call, whatever its end, leaves an option that the collaborator
    leaves. *)
Lemma call_keeps_option {A} (key : string) (ev : Event) (op : M Shared A) w :
  keeps_option key op ->
  options (snd (call ev op w)) !! key = options w !! key.
Proof.
  intros Hop. unfold call, lift_shared, emit, mbind, M_bind. simpl.
  specialize (Hop (options w) (profiling_skipped_other w) (ext w)).
  unfold shared_of. simpl.
  destruct (op _) as [r [[opts counters] e]]. exact Hop.
Qed.

(** The loop body on one table, whatever its end: an option that the
    inherited methods leave stays. *)
Lemma collect_table_keeps_option key config db_name schema requests table w :
  (forall t s d, keeps_option key (get_profile_request t s d)) ->
  (forall pretty, keeps_option key (report_entity_profiled pretty)) ->
  options (snd (collect_table config db_name schema requests table w)) !! key
  = options w !! key.
Proof.
  intros Hget Hreport. unfold collect_table.
  destruct (external_table_excluded _ _); [reflexivity|].
  unfold mbind, M_bind.
  pose proof (call_keeps_option key (CallGetProfileRequest table schema db_name)
                (get_profile_request table schema db_name) w
                (Hget table schema db_name)) as Hfirst.
  destruct (call _ (get_profile_request table schema db_name) w)
    as [[[request|]|e] w1]; simpl in *; try exact Hfirst.
  pose proof (call_keeps_option key (CallReportEntityProfiled (pretty_name request))
                (report_entity_profiled (pretty_name request)) w1
                (Hreport (pretty_name request))) as Hsecond.
  destruct (call _ (report_entity_profiled (pretty_name request)) w1)
    as [[[]|e] w2]; simpl in *; congruence.
Qed.

(** The loop body on one table, when it ends normally. *)
Lemma collect_table_Ok config db_name schema requests table w requests' w' :
  collect_table config db_name schema requests table w = (Ok requests', w') ->
  exists o,
    outcome_fits (profiling config) (schema, table) o
    /\ requests' = requests ++ option_list (outcome_request o)
    /\ trace w' = trace w ++ outcome_events db_name (schema, table) o
    /\ ((forall t s d, leaves_counters (get_profile_request t s d)) ->
        (forall pretty, leaves_counters (report_entity_profiled pretty)) ->
        profiling_skipped_other w'
        = if is_skipped o then increment schema (profiling_skipped_other w)
          else profiling_skipped_other w).
Proof.
  destruct (external_table_excluded (profiling config) table) eqn:Hex.
  - rewrite collect_table_excluded by exact Hex. intros [= <- <-].
    exists Skipped. unfold outcome_fits. simpl.
    rewrite app_nil_r. auto.
  - unfold collect_table. rewrite Hex.
    unfold call, lift_shared, emit. run_M.
    pose proof (fun Hg : forall t s d, leaves_counters (get_profile_request t s d) =>
                  Hg table schema db_name
                    (options w) (profiling_skipped_other w) (ext w)) as Hget.
    unfold shared_of in *. simpl in *.
    destruct (get_profile_request _ _ _ _) as [[[request|]|e] [[opts counters] ex]];
      simpl in *; [| |discriminate].
    + pose proof (fun Hr : forall pretty, leaves_counters (report_entity_profiled pretty) =>
                    Hr (pretty_name request) opts counters ex) as Hrep.
      destruct (report_entity_profiled _ _) as [[[]|e] [[opts' counters'] ex']];
        simpl in *; [|discriminate].
      intros [= <- <-]. exists (Requested request). unfold outcome_fits. simpl.
      rewrite <- app_assoc. repeat split; auto.
      intros Hg Hr. rewrite (Hrep Hr). apply (Hget Hg).
    + intros [= <- <-]. exists Declined. unfold outcome_fits. simpl.
      rewrite app_nil_r. repeat split; auto.
Qed.

Lemma pass_events_app db_name entries1 outcomes1 entries2 outcomes2 :
  length entries1 = length outcomes1 ->
  pass_events db_name (entries1 ++ entries2) (outcomes1 ++ outcomes2)
  = pass_events db_name entries1 outcomes1 ++ pass_events db_name entries2 outcomes2.
Proof.
  revert outcomes1.
  induction entries1 as [|entry entries1 IH]; intros [|o outcomes1] Hlen;
    simpl in *; try discriminate; [reflexivity|].
  rewrite IH by lia. apply app_assoc.
Qed.

Lemma skips_of_app schema entries1 outcomes1 entries2 outcomes2 :
  length entries1 = length outcomes1 ->
  skips_of schema (entries1 ++ entries2) (outcomes1 ++ outcomes2)
  = skips_of schema entries1 outcomes1 + skips_of schema entries2 outcomes2.
Proof.
  revert outcomes1.
  induction entries1 as [|entry entries1 IH]; intros [|o outcomes1] Hlen;
    simpl in *; try discriminate; [reflexivity|].
  rewrite IH by lia. lia.
Qed.

Lemma counter_increment schema counters s :
  counter (increment schema counters) s
  = counter counters s + (if String.eqb schema s then 1 else 0).
Proof.
  unfold counter, increment.
  destruct (String.eqb_spec schema s) as [->|Hne].
  - rewrite lookup_insert_eq. reflexivity.
  - rewrite lookup_insert_ne by exact Hne. lia.
Qed.

(** The inner loop over the tables of one schema, when it ends normally. *)
Lemma collect_tables_Ok config db_name schema tables :
  forall requests w requests' w',
    for_each (collect_table config db_name schema) requests tables w
    = (Ok requests', w') ->
    exists outcomes,
      Forall2 (outcome_fits (profiling config)) (pair schema <$> tables) outcomes
      /\ requests' = requests ++ omap outcome_request outcomes
      /\ trace w' = trace w ++ pass_events db_name (pair schema <$> tables) outcomes
      /\ ((forall t s d, leaves_counters (get_profile_request t s d)) ->
          (forall pretty, leaves_counters (report_entity_profiled pretty)) ->
          forall s,
            counter (profiling_skipped_other w') s
            = counter (profiling_skipped_other w) s
              + skips_of s (pair schema <$> tables) outcomes).
Proof.
  induction tables as [|table tables IH]; intros requests w requests' w' Hrun.
  - injection Hrun as <- <-. exists []. simpl. rewrite !app_nil_r.
    repeat split; auto. intros _ _ s. lia.
  - cbn [for_each] in Hrun. unfold mbind, M_bind in Hrun.
    destruct (collect_table config db_name schema requests table w)
      as [[requests1|e] w1] eqn:Hstep; [|discriminate].
    apply collect_table_Ok in Hstep as (o & Hfit & -> & Htrace & Hcount).
    apply IH in Hrun as (outcomes & Hfits & -> & Htrace' & Hcount').
    exists (o :: outcomes). split; [constructor; assumption|].
    split; [|split].
    + rewrite <- app_assoc. f_equal. destruct o; reflexivity.
    + rewrite Htrace', Htrace, <- app_assoc. reflexivity.
    + intros Hg Hr s. rewrite (Hcount' Hg Hr s), (Hcount Hg Hr).
      rewrite fmap_cons. cbn [skips_of fst].
      destruct o; cbn [is_skipped andb]; rewrite ?counter_increment; lia.
Qed.

(** A loop keeps what each run of its body keeps. *)
Lemma for_each_keeps {St A B X} (f : St -> X) (body : B -> A -> M St B) :
  (forall acc x st, f (snd (body acc x st)) = f st) ->
  forall l acc st, f (snd (for_each body acc l st)) = f st.
Proof.
  intros Hbody l. induction l as [|x l IH]; intros acc st; [reflexivity|].
  cbn [for_each]. unfold mbind, M_bind. specialize (Hbody acc x st).
  destruct (body acc x st) as [[acc'|e] st1]; simpl in *.
  - rewrite IH. exact Hbody.
  - exact Hbody.
Qed.

(** An option that the inherited methods leave stays through both loops,
    whatever their end. *)
Lemma collect_keeps_option key config database db_tables w :
  (forall t s d, keeps_option key (get_profile_request t s d)) ->
  (forall pretty, keeps_option key (report_entity_profiled pretty)) ->
  options (snd (collect config database db_tables w)) !! key = options w !! key.
Proof.
  intros Hget Hreport. unfold collect.
  apply (for_each_keeps (fun w => options w !! key)). intros acc schema w0.
  unfold collect_schema, getitem. unfold mbind, M_bind.
  destruct (db_tables !! schema_name schema) as [tables|]; [|reflexivity].
  cbn [mret M_ret].
  apply (for_each_keeps (fun w => options w !! key)). intros acc' table w1.
  apply collect_table_keeps_option; assumption.
Qed.

(** The outer loop over the schemas, when it ends normally. *)
Lemma collect_schemas_Ok config db_name db_tables schemas :
  forall requests w requests' w',
    for_each (collect_schema config db_name db_tables) requests schemas w
    = (Ok requests', w') ->
    let entries :=
      flat_map (fun schema =>
                  pair (schema_name schema)
                    <$> default [] (db_tables !! schema_name schema)) schemas in
    exists outcomes,
      Forall2 (outcome_fits (profiling config)) entries outcomes
      /\ requests' = requests ++ omap outcome_request outcomes
      /\ trace w' = trace w ++ pass_events db_name entries outcomes
      /\ ((forall t s d, leaves_counters (get_profile_request t s d)) ->
          (forall pretty, leaves_counters (report_entity_profiled pretty)) ->
          forall s,
            counter (profiling_skipped_other w') s
            = counter (profiling_skipped_other w) s + skips_of s entries outcomes).
Proof.
  induction schemas as [|schema rest IH]; intros requests w requests' w' Hrun.
  - injection Hrun as <- <-. exists []. simpl. rewrite !app_nil_r.
    repeat split; auto. intros _ _ s. lia.
  - cbn [for_each] in Hrun. unfold mbind, M_bind in Hrun.
    unfold collect_schema at 1, getitem, mbind, M_bind in Hrun.
    cbn [flat_map].
    destruct (db_tables !! schema_name schema) as [tables|];
      [|discriminate].
    cbn [mret M_ret] in Hrun. change (default [] (Some tables)) with tables.
    destruct (for_each _ requests tables w) as [[requests1|e] w1] eqn:Htables;
      [|discriminate].
    apply collect_tables_Ok in Htables as (outcomes1 & Hfits1 & -> & Htrace1 & Hcount1).
    apply IH in Hrun as (outcomes2 & Hfits2 & -> & Htrace2 & Hcount2).
    pose proof (Forall2_length _ _ _ Hfits1) as Hlen.
    exists (outcomes1 ++ outcomes2). split; [apply Forall2_app; assumption|].
    split; [|split].
    + rewrite omap_app, app_assoc. reflexivity.
    + rewrite pass_events_app by exact Hlen.
      rewrite Htrace2, Htrace1, <- app_assoc. reflexivity.
    + intros Hg Hr s. rewrite skips_of_app by exact Hlen.
      rewrite (Hcount2 Hg Hr s), (Hcount1 Hg Hr s). lia.
Qed.

(** Both loops, when they end normally: one outcome for each table of the
    snapshot, in the order of the visit. *)
Lemma collect_Ok config database db_tables w requests w' :
  collect config database db_tables w = (Ok requests, w') ->
  exists outcomes,
    Forall2 (outcome_fits (profiling config)) (visited database db_tables) outcomes
    /\ requests = omap outcome_request outcomes
    /\ trace w' = trace w
                  ++ pass_events (database_name database)
                       (visited database db_tables) outcomes
    /\ ((forall t s d, leaves_counters (get_profile_request t s d)) ->
        (forall pretty, leaves_counters (report_entity_profiled pretty)) ->
        forall s,
          counter (profiling_skipped_other w') s
          = counter (profiling_skipped_other w) s
            + skips_of s (visited database db_tables) outcomes).
Proof. intros Hrun. apply collect_schemas_Ok in Hrun. exact Hrun. Qed.

Lemma dispatches_app (t1 t2 : list Event) :
  dispatches (t1 ++ t2) = dispatches t1 ++ dispatches t2.
Proof. apply List.filter_app. Qed.

(** The collect phase calls no batch execution. *)
Lemma dispatches_pass_events db_name entries outcomes :
  dispatches (pass_events db_name entries outcomes) = [].
Proof.
  revert outcomes.
  induction entries as [|[schema table] entries IH]; intros [|o outcomes];
    try reflexivity.
  cbn [pass_events]. rewrite dispatches_app, IH, app_nil_r.
  destruct o; reflexivity.
Qed.

End Collect.

(** ** [get_workunits] *)

Section Workunits.

Context `{PythonRuntime} `{Collaborators}.

Lemma default_max_overflow_Ok config w :
  exists w0,
    default_max_overflow config w = (Ok tt, w0)
    /\ trace w0 = trace w
    /\ options w0
       = (if is_profiling_enabled config then
            match options w !! "max_overflow"%string with
            | Some _ => options w
            | None => <["max_overflow"%string := PyInt (Z.of_N (max_workers (profiling config)))]>
                        (options w)
            end
          else options w).
Proof.
  unfold default_max_overflow, options_setdefault.
  destruct (is_profiling_enabled config); [|eexists; split; [reflexivity|auto]].
  destruct (options w !! "max_overflow"%string);
    eexists; (split; [reflexivity|auto]).
Qed.

(** After its first statement [get_workunits] writes an option only
    through the inherited methods: one that they leave stays to the end of
    the pass, whatever that end. *)
Lemma get_workunits_keeps_option key config database db_tables w :
  (forall t s d, keeps_option key (get_profile_request t s d)) ->
  (forall pretty, keeps_option key (report_entity_profiled pretty)) ->
  (forall requests workers db pf args,
     keeps_option key (generate_profile_workunits requests workers db pf args)) ->
  options (snd (get_workunits config database db_tables w)) !! key
  = options (snd (default_max_overflow config w)) !! key.
Proof.
  intros Hget Hreport Hgenerate.
  unfold get_workunits, mbind, M_bind.
  destruct (default_max_overflow_Ok config w) as (w0 & -> & _ & _). simpl.
  pose proof (collect_keeps_option key config database db_tables w0 Hget Hreport)
    as Hopts.
  destruct (collect config database db_tables w0) as [[requests|e] w1];
    simpl in *; [|exact Hopts].
  destruct (length requests =? 0)%nat; simpl; [exact Hopts|].
  rewrite call_keeps_option by apply Hgenerate. exact Hopts.
Qed.


(** C4.  On an external table, with [profile_external_tables] off, the
    loop body ends normally with the pending list as it was, one more on
    the counter of the schema and no other counter touched, one info
    record in the trace, and nothing else: no call of
    [get_profile_request], the collaborators and the options as before. *)
Theorem external_table_skip_recorded
  (config : SnowflakeV2Config) (db_name schema : string)
  (requests : list TableProfilerRequest) (table : SnowflakeTable) (w : World) :
  profile_external_tables (profiling config) = false ->
  type table = Some "EXTERNAL TABLE"%string ->
  exists w',
    collect_table config db_name schema requests table w = (Ok requests, w')
    /\ counter (profiling_skipped_other w') schema
       = counter (profiling_skipped_other w) schema + 1
    /\ (forall other, other <> schema ->
          profiling_skipped_other w' !! other = profiling_skipped_other w !! other)
    /\ trace w'
       = trace w ++ [LogInfo ("Skipping profiling of external table "
                                +:+ db_name +:+ "." +:+ schema +:+ "."
                                +:+ name table)]
    /\ ext w' = ext w
    /\ options w' = options w.
Proof.
  intros Hflag Htype.
  assert (external_table_excluded (profiling config) table = true) as Hex.
  { unfold external_table_excluded. rewrite Hflag, Htype. reflexivity. }
  eexists. split; [apply collect_table_excluded; exact Hex|]. simpl.
  split; [|split; [|auto]].
  - rewrite counter_increment, String.eqb_refl. reflexivity.
  - intros other Hne. unfold increment. apply lookup_insert_ne. congruence.
Qed.

(** C6.  When the pending list is empty after the loops, [get_workunits]
    yields no work unit, leaves the world as the loops left it, and the
    trace holds no call of [generate_profile_workunits] that was not
    there before. *)
Theorem no_dispatch_without_requests
  (config : SnowflakeV2Config) (database : SnowflakeDatabase)
  (db_tables : gmap string (list SnowflakeTable)) (w w1 : World) :
  collect config database db_tables (snd (default_max_overflow config w))
  = (Ok [], w1) ->
  get_workunits config database db_tables w = (Ok [], w1)
  /\ dispatches (trace w1) = dispatches (trace w).
Proof.
  intros Hrun.
  destruct (default_max_overflow_Ok config w) as (w0 & Hfirst & Htrace0 & _).
  rewrite Hfirst in Hrun. simpl in Hrun. split.
  - unfold get_workunits, mbind, M_bind. rewrite Hfirst, Hrun. reflexivity.
  - apply collect_Ok in Hrun as (outcomes & _ & _ & Htrace & _).
    rewrite Htrace, dispatches_app, dispatches_pass_events, app_nil_r, Htrace0.
    reflexivity.
Qed.

(** C7, as the code has it.  With profiling enabled, the first statement
    of [get_workunits] leaves in the options the [max_overflow] they
    already had, whatever its value, or [max_workers] when they had none.
    That entry is the one the pass ends with, whatever its end, when the
    inherited methods do not write [max_overflow]. *)
Theorem max_overflow_defaults_to_max_workers
  (config : SnowflakeV2Config) (database : SnowflakeDatabase)
  (db_tables : gmap string (list SnowflakeTable)) (w : World) :
  is_profiling_enabled config = true ->
  exists w0,
    default_max_overflow config w = (Ok tt, w0)
    /\ options w0 !! "max_overflow"%string
       = Some (default (PyInt (Z.of_N (max_workers (profiling config))))
                 (options w !! "max_overflow"%string))
    /\ ((forall t s d, keeps_option "max_overflow" (get_profile_request t s d)) ->
        (forall pretty,
           keeps_option "max_overflow" (report_entity_profiled pretty)) ->
        (forall requests workers db pf args,
           keeps_option "max_overflow"
             (generate_profile_workunits requests workers db pf args)) ->
        options (snd (get_workunits config database db_tables w))
          !! "max_overflow"%string
        = Some (default (PyInt (Z.of_N (max_workers (profiling config))))
                  (options w !! "max_overflow"%string))).
Proof.
  intros Hon.
  destruct (default_max_overflow_Ok config w) as (w0 & Hfirst & _ & Hopts).
  assert (options w0 !! "max_overflow"%string
          = Some (default (PyInt (Z.of_N (max_workers (profiling config))))
                    (options w !! "max_overflow"%string))) as Hvalue.
  { rewrite Hopts, Hon.
    destruct (options w !! "max_overflow"%string) as [v|] eqn:Hv; simpl.
    - exact Hv.
    - apply lookup_insert_eq. }
  exists w0. split; [exact Hfirst|]. split; [exact Hvalue|].
  intros Hget Hreport Hgenerate.
  rewrite (get_workunits_keeps_option _ _ _ _ _ Hget Hreport Hgenerate).
  rewrite Hfirst. exact Hvalue.
Qed.

End Workunits.

(** ** Connections *)

Section Connections.

Context `{PythonRuntime} `{Collaborators}.

(** C9.  The factory returns a connection exactly when [get_connection]
    opened it, a cursor was taken on it, and the statement
    [use_database db_name] ran on that cursor, in this order; the state
    it leaves is the one after the statement. *)
Theorem connection_is_scoped_to_database
  (db_name : string) (st st' : Shared) (conn : Connection) :
  callable_for_db_connection db_name st = (Ok conn, st') <->
  exists st1 cur st2,
    get_connection st = (Ok conn, st1)
    /\ cursor conn st1 = (Ok cur, st2)
    /\ execute cur (use_database db_name) st2 = (Ok tt, st').
Proof.
  unfold callable_for_db_connection, mbind, M_bind, mret, M_ret. split.
  - destruct (get_connection st) as [[conn0|e] st1]; [|discriminate].
    destruct (cursor conn0 st1) as [[cur|e] st2] eqn:Hcur; [|discriminate].
    destruct (execute cur _ st2) as [[[]|e] st3] eqn:Hexec; [|discriminate].
    intros [= <- <-]. eauto 6.
  - intros (st1 & cur & st2 & -> & -> & ->). reflexivity.
Qed.

(** C10.  Without a database name ([None], or the empty string) the
    assertion fails at once and the world is untouched; a profiler
    instance is returned only for a name that is not empty. *)
Theorem get_profiler_instance_requires_db_name
  (config : SnowflakeV2Config) (w : World) :
  get_profiler_instance config None w = (Raise AssertionError, w)
  /\ get_profiler_instance config (Some EmptyString) w = (Raise AssertionError, w)
  /\ (forall db_name profiler w',
        get_profiler_instance config db_name w = (Ok profiler, w') ->
        exists c s, db_name = Some (String c s)).
Proof.
  split; [reflexivity|]. split; [reflexivity|].
  intros [[|c s]|] profiler w' Hrun; try discriminate. eauto.
Qed.

End Connections.

(** ** The profiler on the sample warehouse *)

Module SampleRuns.

Import Sample.


(** [t_lower] is quoted, [T_UPPER] is not. *)
Lemma t_lower_quoted_T_UPPER_not :
  kwargs_of profiling_config t_lower !! "use_quoted_name"%string = Some (PyBool true)
  /\ kwargs_of profiling_config T_UPPER !! "use_quoted_name"%string
     = Some (PyBool false).
Proof.
  split.
  - destruct (proj2 (use_quoted_name_iff_not_upper config t_lower "PUBLIC" "DB")
                (kwargs_of profiling_config t_lower) ltac:(reflexivity))
      as (flag & Hflag & Hiff & _).
    rewrite Hflag. f_equal. f_equal. apply Hiff. vm_compute. discriminate.
  - destruct (proj2 (use_quoted_name_iff_not_upper config T_UPPER "PUBLIC" "DB")
                (kwargs_of profiling_config T_UPPER) ltac:(reflexivity))
      as (flag & Hflag & _ & _ & Hupper).
    rewrite Hflag. f_equal. f_equal. apply (Hupper eq_refl). reflexivity.
Defined.

(** A limit of a thousand rows: no sampling query for the million rows. *)
Lemma limit_1000_no_sampling :
  limit limit_1000 = Some 1000%N
  /\ kwargs_of limit_1000 orders !! "custom_sql"%string = Some PyNone.
Proof.
  split; [reflexivity|].
  destruct (nonzero_limit_disables_sampling (config_of limit_1000) orders
              "PUBLIC" "DB" 1000%N)
    as (kwargs & Hk & Hsql); [reflexivity|discriminate|].
  unfold kwargs_of. rewrite Hk. exact Hsql.
Defined.

(** A limit of zero is no limit: the million rows are sampled. *)
Lemma zero_limit_still_samples :
  limit zero_limit = Some 0%N
  /\ get_batch_kwargs (config_of zero_limit) orders "PUBLIC" "DB"
     = Ok (kwargs_of zero_limit orders)
  /\ kwargs_of zero_limit orders !! "custom_sql"%string
     = Some (PyStr (query_text "ORDERS" "1.00000000")).
Proof. repeat split; vm_compute; reflexivity. Qed.

(** A table without a row-count estimate is not sampled. *)
Lemma unknown_row_count_no_sampling :
  rows_count events = None
  /\ kwargs_of profiling_config events !! "custom_sql"%string = Some PyNone.
Proof.
  split; [reflexivity|].
  destruct (proj1 (no_sampling_leaves_custom_sql_unset config events "PUBLIC" "DB"))
    as (kwargs & Hk & Hsql); [left; reflexivity|].
  unfold kwargs_of. change (config_of profiling_config) with config.
  rewrite Hk. exact Hsql.
Defined.

(** With a limit of zero set, forty thousand rows are sampled all the same. *)
Lemma zero_limit_set_and_sampled :
  limit zero_limit = Some 0%N
  /\ get_batch_kwargs (config_of zero_limit) clicks "PUBLIC" "DB"
     = Ok (kwargs_of zero_limit clicks)
  /\ kwargs_of zero_limit clicks !! "custom_sql"%string
     = Some (PyStr (query_text "CLICKS" "25.00000000")).
Proof. repeat split; vm_compute; reflexivity. Qed.



(** The external table of the sample is skipped and counted once. *)
Lemma external_table_counted_once :
  exists w',
    collect_table config "DB" "PUBLIC" [] external_table empty_world = (Ok [], w')
    /\ counter (profiling_skipped_other w') "PUBLIC" = 1
    /\ trace w'
       = [LogInfo "Skipping profiling of external table DB.PUBLIC.EXT_SALES"].
Proof.
  destruct (external_table_skip_recorded config "DB" "PUBLIC" [] external_table
              empty_world eq_refl eq_refl)
    as (w' & Hrun & Hcount & _ & Htrace & _).
  exists w'. split; [exact Hrun|]. split; [exact Hcount|exact Htrace].
Defined.

(** A schema with only the external table: no work unit, no dispatch. *)
Lemma only_external_table_no_dispatch :
  fst (run_pass [external_table] empty_world) = Ok []
  /\ dispatches (trace (snd (run_pass [external_table] empty_world))) = [].
Proof.
  destruct (no_dispatch_without_requests config database (catalog [external_table])
              empty_world
              (snd (collect config database (catalog [external_table])
                      (snd (default_max_overflow config empty_world)))))
    as (Hrun & Hdispatch); [reflexivity|].
  unfold run_pass. rewrite Hrun. split; [reflexivity|exact Hdispatch].
Defined.

(** Options without [max_overflow] get the twenty workers; the pass,
    which dispatches, also leaves the [connect_args] of the connector. *)
Lemma max_overflow_set_when_absent :
  options (snd (run_pass [orders] empty_world)) !! "max_overflow"%string
  = Some (PyInt 20)
  /\ options (snd (run_pass [orders] empty_world)) !! "connect_args"%string
     = Some (PyDict []).
Proof.
  split; [|vm_compute; reflexivity].
  destruct (max_overflow_defaults_to_max_workers config database
              (catalog [orders]) empty_world eq_refl)
    as (w0 & _ & _ & Hend).
  apply Hend.
  - intros t s d opts counters e. reflexivity.
  - intros pretty opts counters e. reflexivity.
  - intros requests workers db pf args opts counters e. simpl.
    apply lookup_insert_ne. discriminate.
Defined.

(** Options that hold a [max_overflow] of 1 keep it, below the twenty
    workers. *)
Lemma max_overflow_kept_below_max_workers :
  is_profiling_enabled config = true
  /\ max_workers (profiling config) = 20%N
  /\ options (snd (run_pass [orders] world_with_overflow)) !! "max_overflow"%string
     = Some (PyInt 1).
Proof. repeat split; vm_compute; reflexivity. Qed.

(** The factory on the empty warehouse: session 0, with the statement
    that selects DB run on it. *)
Lemma sample_connection_scoped :
  exists st1 cur st2,
    get_connection empty_shared = (Ok 0%nat, st1)
    /\ cursor 0%nat st1 = (Ok cur, st2)
    /\ execute cur (use_database "DB") st2
       = (Ok tt, shared_after_use_database).
Proof.
  apply (proj1 (@connection_is_scoped_to_database collaborators "DB" empty_shared
                  shared_after_use_database 0%nat)).
  reflexivity.
Defined.

(** The profiler instance of the sample is built for the name DB. *)
Lemma sample_profiler_instance_named :
  fst (get_profiler_instance config (Some "DB"%string) empty_world) = Ok 0%nat
  /\ exists c s, Some "DB"%string = Some (String c s).
Proof.
  split; [reflexivity|].
  apply (proj2 (proj2 (get_profiler_instance_requires_db_name config empty_world))
           (Some "DB"%string) 0%nat
           (snd (get_profiler_instance config (Some "DB"%string) empty_world))).
  simpl. reflexivity.
Defined.

End SampleRuns.

(** * Further properties *)

(** ** Digits *)

Lemma all_digits_append (s1 s2 : string) :
  PyStrChecks.all_digits (s1 +:+ s2)
  = PyStrChecks.all_digits s1 && PyStrChecks.all_digits s2.
Proof.
  induction s1 as [|c s1 IH]; simpl; [reflexivity|].
  rewrite IH. apply andb_assoc.
Qed.

Lemma is_digit_digit (d : Z) :
  0 <= d < 10 -> PyStrChecks.is_digit (PyStrOps.digit d) = true.
Proof.
  intros Hd. unfold PyStrOps.digit.
  assert (Z.to_nat d < 10)%nat as Hlt by lia.
  destruct (Z.to_nat d) as [|[|[|[|[|[|[|[|[|[|k]]]]]]]]]];
    first [lia | reflexivity].
Qed.

Lemma all_digits_low_digits (width : nat) (n : Z) :
  PyStrChecks.all_digits (PyStrOps.low_digits width n) = true.
Proof.
  revert n. induction width as [|w IH]; intros n; simpl; [reflexivity|].
  rewrite all_digits_append, IH. cbn [PyStrChecks.all_digits andb].
  rewrite is_digit_digit by (apply Z.mod_pos_bound; lia). reflexivity.
Qed.

Lemma all_digits_string_of_uint (d : Decimal.uint) :
  PyStrChecks.all_digits (NilEmpty.string_of_uint d) = true.
Proof. induction d; simpl; try rewrite IHd; reflexivity. Qed.

Lemma all_digits_decimal (n : Z) :
  PyStrChecks.all_digits (PyStrOps.decimal n) = true
  /\ PyStrOps.decimal n <> EmptyString.
Proof.
  unfold PyStrOps.decimal, NilZero.string_of_uint.
  destruct (N.to_uint (Z.to_N n)) eqn:Hd;
    try (split; [exact (all_digits_string_of_uint _)|discriminate]).
  split; [reflexivity|discriminate].
Qed.

Section SamplingFurther.

Context `{PythonRuntime} `{Collaborators}.

(** A true division by a divisor that is not zero returns a float with
    the sign of the quotient, or raises [OverflowError]. *)
Lemma true_divide_nonzero (a b : Z) :
  b <> 0 ->
  PyFloat.true_divide a b = Raise OverflowError
  \/ exists m e,
       PyFloat.true_divide a b = Ok (PyFloat.Float (xorb (a <? 0) (b <? 0)) m e).
Proof.
  intros Hb. unfold PyFloat.true_divide.
  destruct (Z.eqb_spec b 0) as [?|_]; [contradiction|].
  destruct (a =? 0); [right; eauto|].
  destruct (_ && _); [left; reflexivity|right; eauto].
Qed.

(** The guard of [get_batch_kwargs] keeps the division safe for a sample
    size that is not negative: where sampling applies the quotient is
    returned, without a sign, and near the exact ratio. *)
Lemma sample_pc_small (p : GEProfilingConfig) (table : BaseTable) :
  sampling_applies p table = true ->
  0 <= sample_size p ->
  exists rows m e,
    rows_count table = Some rows
    /\ sample_size p < Z.of_N rows
    /\ PyFloat.true_divide (100 * sample_size p) (Z.of_N rows)
       = Ok (PyFloat.Float false m e)
    /\ let n := PyFloat.scaled_decimal 8 (PyFloat.Float false m e) in
       0 <= n
       /\ 2 ^ 46 * Z.abs (2 * (n * Z.of_N rows)
                          - 2 * (10 ^ 8 * (100 * sample_size p)))
          <= Z.of_N rows * (2 ^ 46 + 10 ^ 8).
Proof.
  intros Happ Hnonneg.
  destruct (sampling_applies_rows p table Happ) as (rows & Hrows & _ & Hlt).
  destruct (PyFloatFacts.true_divide_small (100 * sample_size p) (Z.of_N rows))
    as (m & e & Hdiv & He & Hm & Hsmall & Hnear); try lia.
  exists rows, m, e. repeat split; try assumption;
    apply (PyFloatFacts.scaled_decimal_near
             (100 * sample_size p) (Z.of_N rows) m e);
    try lia; assumption.
Qed.

(** X1.  [get_batch_kwargs] never divides by zero: the guard on
    [rows_count] sees to it.  It raises only [OverflowError], and only
    where sampling applies with a negative sample size; for a sample size
    that is not negative it always returns.  The kwargs it returns hold
    [use_quoted_name] and [custom_sql] and, under every other key, what
    the inherited kwargs hold. *)
Theorem get_batch_kwargs_returns_inherited_and_two_keys
  (config : SnowflakeV2Config) (table : BaseTable) (schema db_name : string) :
  match get_batch_kwargs config table schema db_name with
  | Ok kwargs =>
      is_Some (kwargs !! "use_quoted_name"%string)
      /\ is_Some (kwargs !! "custom_sql"%string)
      /\ (forall key,
            key <> "use_quoted_name"%string -> key <> "custom_sql"%string ->
            kwargs !! key = super_get_batch_kwargs table schema db_name !! key)
  | Raise e =>
      e = OverflowError
      /\ sample_size (profiling config) < 0
      /\ sampling_applies (profiling config) table = true
  end.
Proof.
  assert (match custom_sql (profiling config) table schema db_name with
          | Ok _ => True
          | Raise e =>
              e = OverflowError
              /\ sample_size (profiling config) < 0
              /\ sampling_applies (profiling config) table = true
          end) as Hsql.
  { unfold custom_sql.
    destruct (sampling_applies (profiling config) table) eqn:Happ; [|exact I].
    destruct (Z_le_gt_dec 0 (sample_size (profiling config))) as [Hnonneg|Hneg].
    - destruct (sample_pc_small _ _ Happ Hnonneg) as (rows & m & e & -> & _ & -> & _).
      exact I.
    - destruct (sampling_applies_rows _ _ Happ) as (rows & -> & Hrows & _).
      destruct (true_divide_nonzero (100 * sample_size (profiling config))
                  (Z.of_N rows)) as [->|(m & e & ->)]; [lia| |exact I].
      repeat split. lia. }
  unfold get_batch_kwargs.
  destruct (custom_sql (profiling config) table schema db_name) as [sql|e];
    [|exact Hsql].
  split; [|split].
  - rewrite lookup_insert_ne by discriminate. rewrite lookup_insert_eq. eauto.
  - rewrite lookup_insert_eq. eauto.
  - intros key Hq Hc. rewrite !lookup_insert_ne by congruence. reflexivity.
Qed.

(** X2.  Where sampling applies with a sample size that is not negative,
    the fraction in the query is a plain decimal literal between 0 and
    100: an integer part made of digits, a point and eight digits, with
    no sign and no exponent. *)
Theorem sampling_fraction_is_a_percentage
  (p : GEProfilingConfig) (table : BaseTable) (schema db_name : string) :
  sampling_applies p table = true ->
  0 <= sample_size p ->
  exists n : Z,
    0 <= n <= 10 ^ 10
    /\ custom_sql p table schema db_name
       = Ok (Some ("select * from "
                     +:+ PyStrOps.dquote +:+ db_name +:+ PyStrOps.dquote +:+ "."
                     +:+ PyStrOps.dquote +:+ schema +:+ PyStrOps.dquote +:+ "."
                     +:+ PyStrOps.dquote +:+ name table +:+ PyStrOps.dquote
                     +:+ " TABLESAMPLE ("
                     +:+ (PyStrOps.decimal (n / 10 ^ 8) +:+ "."
                            +:+ PyStrOps.low_digits 8 (n mod 10 ^ 8))
                     +:+ ")"))
    /\ PyStrChecks.all_digits (PyStrOps.decimal (n / 10 ^ 8)) = true
    /\ PyStrOps.decimal (n / 10 ^ 8) <> EmptyString
    /\ PyStrChecks.all_digits (PyStrOps.low_digits 8 (n mod 10 ^ 8)) = true
    /\ String.length (PyStrOps.low_digits 8 (n mod 10 ^ 8)) = 8%nat.
Proof.
  intros Happ Hnonneg.
  destruct (sample_pc_small p table Happ Hnonneg)
    as (rows & m & e & Hrows & Hlt & Hdiv & Hn0 & Hnear).
  set (n := PyFloat.scaled_decimal 8 (PyFloat.Float false m e)) in *.
  exists n. split; [|split; [|split; [|split; [|split]]]].
  - split; [exact Hn0|].
    assert (0 < Z.of_N rows) by lia.
    assert (2 ^ 46 * (2 * (n * Z.of_N rows)
                      - 2 * (10 ^ 8 * (100 * sample_size p)))
            <= Z.of_N rows * (2 ^ 46 + 10 ^ 8)) as Hup by lia.
    change (10 ^ 10) with 10000000000.
    change (2 ^ 46) with 70368744177664 in Hup.
    change (10 ^ 8) with 100000000 in Hup. nia.
  - unfold custom_sql. rewrite Happ, Hrows, Hdiv. reflexivity.
  - apply all_digits_decimal.
  - apply all_digits_decimal.
  - apply all_digits_low_digits.
  - apply length_low_digits.
Qed.

(** X3.  Where sampling applies with a sample size that is not negative
    and the row count is more than [4 * 10^10] times the sample size
    (always so for a sample size of 0), the fraction printed is
    0.00000000: the query samples no row. *)
Theorem sampling_fraction_underflows_to_zero
  (p : GEProfilingConfig) (table : BaseTable) (schema db_name : string)
  (rows : N) :
  sampling_applies p table = true ->
  rows_count table = Some rows ->
  0 <= sample_size p ->
  4 * 10 ^ 10 * sample_size p < Z.of_N rows ->
  custom_sql p table schema db_name
  = Ok (Some ("select * from "
                +:+ PyStrOps.dquote +:+ db_name +:+ PyStrOps.dquote +:+ "."
                +:+ PyStrOps.dquote +:+ schema +:+ PyStrOps.dquote +:+ "."
                +:+ PyStrOps.dquote +:+ name table +:+ PyStrOps.dquote
                +:+ " TABLESAMPLE (0.00000000)")).
Proof.
  intros Happ Hrows Hnonneg Hbig.
  destruct (sample_pc_small p table Happ Hnonneg)
    as (rows' & m & e & Hrows' & Hlt & Hdiv & Hn0 & Hnear).
  rewrite Hrows in Hrows'. injection Hrows' as <-.
  set (n := PyFloat.scaled_decimal 8 (PyFloat.Float false m e)) in *.
  assert (n = 0) as Hzero.
  { change (10 ^ 10) with 10000000000 in Hbig.
    change (2 ^ 46) with 70368744177664 in Hnear.
    change (10 ^ 8) with 100000000 in Hnear.
    destruct (Z.eq_dec n 0) as [|Hne]; [assumption|exfalso].
    assert (1 <= n) by lia.
    assert (2 * (n * Z.of_N rows) >= 2 * Z.of_N rows) by nia.
    lia. }
  unfold custom_sql. rewrite Happ, Hrows, Hdiv.
  unfold sampling_query, PyFloat.format_8f. fold n. rewrite Hzero.
  reflexivity.
Qed.

(** X13.  Where sampling applies with a negative sample size, the
    division raises [OverflowError] or the fraction in the query is
    printed with a minus sign: [TABLESAMPLE (-d.dddddddd)]. *)
Theorem negative_sample_size_gives_signed_fraction
  (p : GEProfilingConfig) (table : BaseTable) (schema db_name : string) :
  sampling_applies p table = true ->
  sample_size p < 0 ->
  custom_sql p table schema db_name = Raise OverflowError
  \/ exists n : Z,
       custom_sql p table schema db_name
       = Ok (Some ("select * from "
                     +:+ PyStrOps.dquote +:+ db_name +:+ PyStrOps.dquote +:+ "."
                     +:+ PyStrOps.dquote +:+ schema +:+ PyStrOps.dquote +:+ "."
                     +:+ PyStrOps.dquote +:+ name table +:+ PyStrOps.dquote
                     +:+ " TABLESAMPLE ("
                     +:+ ("-" +:+ PyStrOps.decimal (n / 10 ^ 8) +:+ "."
                            +:+ PyStrOps.low_digits 8 (n mod 10 ^ 8))
                     +:+ ")"))
       /\ PyStrChecks.all_digits (PyStrOps.decimal (n / 10 ^ 8)) = true
       /\ String.length (PyStrOps.low_digits 8 (n mod 10 ^ 8)) = 8%nat.
Proof.
  intros Happ Hneg.
  destruct (sampling_applies_rows p table Happ) as (rows & Hrows & Hnz & _).
  unfold custom_sql. rewrite Happ, Hrows.
  destruct (true_divide_nonzero (100 * sample_size p) (Z.of_N rows))
    as [->|(m & e & ->)]; [lia|left; reflexivity|right].
  replace (100 * sample_size p <? 0) with true by (symmetry; apply Z.ltb_lt; lia).
  replace (Z.of_N rows <? 0) with false by (symmetry; apply Z.ltb_ge; lia).
  exists (PyFloat.scaled_decimal 8 (PyFloat.Float true m e)).
  split; [reflexivity|]. split.
  - apply all_digits_decimal.
  - apply length_low_digits.
Qed.

End SamplingFurther.

(** ** Whole passes, whatever their end *)

Section PassesFurther.

Context `{PythonRuntime} `{Collaborators}.

Ltac step_M := unfold mbind, M_bind, mret, M_ret, raise in *; simpl in *.

(** A loop over two lists in a row: the second starts where the first
    ended, unless the first raised. *)
Lemma for_each_app {St A B} (body : B -> A -> M St B) (l1 l2 : list A) :
  forall acc st,
    for_each body acc (l1 ++ l2) st
    = match for_each body acc l1 st with
      | (Ok acc', st') => for_each body acc' l2 st'
      | (Raise e, st') => (Raise e, st')
      end.
Proof.
  induction l1 as [|x l1 IH]; intros acc st; [reflexivity|].
  cbn [for_each app]. unfold mbind, M_bind.
  destruct (body acc x st) as [[acc'|e] st1]; [apply IH|reflexivity].
Qed.

Lemma collect_table_dispatches config db_name schema requests table w :
  dispatches (trace (snd (collect_table config db_name schema requests table w)))
  = dispatches (trace w).
Proof.
  unfold collect_table.
  destruct (external_table_excluded _ _); simpl.
  - rewrite dispatches_app. apply app_nil_r.
  - unfold call, lift_shared, emit. step_M.
    destruct (get_profile_request _ _ _ _) as [[[request|]|e] [[opts counters] ex]];
      simpl; try (rewrite dispatches_app; apply app_nil_r).
    destruct (report_entity_profiled _ _) as [[[]|e] [[opts' counters'] ex']]; simpl;
      rewrite !dispatches_app; simpl; rewrite !app_nil_r; reflexivity.
Qed.

(** The two loops call no batch execution, also when they raise. *)
Lemma collect_dispatches config database db_tables w :
  dispatches (trace (snd (collect config database db_tables w)))
  = dispatches (trace w).
Proof.
  unfold collect.
  apply (for_each_keeps (fun w => dispatches (trace w))). intros acc schema w0.
  unfold collect_schema, getitem. unfold mbind, M_bind.
  destruct (db_tables !! schema_name schema) as [tables|]; [|reflexivity].
  cbn [mret M_ret].
  apply (for_each_keeps (fun w => dispatches (trace w))). intros acc' table w1.
  apply collect_table_dispatches.
Qed.

(** X4.  A schema of the database with no entry in [db_tables] ends the
    pass with [KeyError] on its name, in the world the schemas before it
    left: the requests they gave are dropped and nothing is dispatched. *)
Theorem missing_schema_raises_KeyError
  (config : SnowflakeV2Config) (db_name : string)
  (before : list SnowflakeSchema) (schema : SnowflakeSchema)
  (after : list SnowflakeSchema)
  (db_tables : gmap string (list SnowflakeTable))
  (w w1 : World) (requests : list TableProfilerRequest) :
  db_tables !! schema_name schema = None ->
  collect config {| database_name := db_name; schemas := before |} db_tables
    (snd (default_max_overflow config w))
  = (Ok requests, w1) ->
  get_workunits config
    {| database_name := db_name; schemas := before ++ schema :: after |}
    db_tables w
  = (Raise (KeyError (schema_name schema)), w1)
  /\ dispatches (trace w1) = dispatches (trace w).
Proof.
  intros Hmissing Hbefore.
  destruct (default_max_overflow_Ok config w) as (w0 & Hfirst & Htrace0 & _).
  rewrite Hfirst in Hbefore. simpl in Hbefore. split.
  - unfold get_workunits, mbind, M_bind. rewrite Hfirst.
    unfold collect in *. cbn [schemas database_name] in *.
    rewrite for_each_app, Hbefore. cbn [for_each]. unfold mbind, M_bind.
    unfold collect_schema at 1, getitem, mbind, M_bind. rewrite Hmissing.
    reflexivity.
  - pose proof (collect_dispatches config
                  {| database_name := db_name; schemas := before |} db_tables w0)
      as Hd.
    rewrite Hbefore in Hd. simpl in Hd. rewrite Hd, Htrace0. reflexivity.
Qed.

(** X5.  [generate_profile_workunits] is called at most once in a pass:
    once, as the last event, with the whole pending list, when the loops
    ended normally with a pending list that is not empty, and then the
    pass yields what the call returned; not at all otherwise. *)
Theorem dispatch_once_with_the_pending_list
  (config : SnowflakeV2Config) (database : SnowflakeDatabase)
  (db_tables : gmap string (list SnowflakeTable)) (w : World) :
  let run := get_workunits config database db_tables w in
  match collect config database db_tables (snd (default_max_overflow config w)) with
  | (Ok (request :: more), w1) =>
      let dispatch :=
        CallGenerateProfileWorkunits (request :: more)
          (max_workers (profiling config)) (database_name database) platform in
      trace (snd run) = trace w1 ++ [dispatch]
      /\ dispatches (trace (snd run)) = dispatches (trace w) ++ [dispatch]
      /\ fst run
         = fst (generate_profile_workunits (request :: more)
                  (max_workers (profiling config)) (database_name database)
                  platform get_profile_args (shared_of w1))
  | (Ok [], w1) =>
      run = (Ok [], w1) /\ dispatches (trace w1) = dispatches (trace w)
  | (Raise e, w1) =>
      run = (Raise e, w1) /\ dispatches (trace w1) = dispatches (trace w)
  end.
Proof.
  intros run. subst run.
  destruct (default_max_overflow_Ok config w) as (w0 & Hfirst & Htrace0 & _).
  rewrite Hfirst. simpl.
  pose proof (collect_dispatches config database db_tables w0) as Hd.
  unfold get_workunits, mbind, M_bind. rewrite Hfirst.
  destruct (collect config database db_tables w0) as [[[|request more]|e] w1];
    simpl in Hd |- *.
  - split; [reflexivity|]. rewrite Hd, Htrace0. reflexivity.
  - unfold call, lift_shared, emit, mbind, M_bind. simpl.
    destruct (generate_profile_workunits _ _ _ _ _ _) as [r [[opts counters] ex]].
    simpl. split; [reflexivity|]. split; [|reflexivity].
    rewrite dispatches_app, Hd, Htrace0. reflexivity.
  - split; [reflexivity|]. rewrite Hd, Htrace0. reflexivity.
Qed.

Lemma pass_events_calls p db_name entries outcomes :
  Forall2 (outcome_fits p) entries outcomes ->
  profile_request_calls (pass_events db_name entries outcomes)
  = List.filter (fun entry => negb (is_excluded_entry p entry)) entries
  /\ info_records (pass_events db_name entries outcomes)
     = skip_record db_name <$> List.filter (is_excluded_entry p) entries.
Proof.
  unfold profile_request_calls, info_records.
  induction 1 as [|[schema table] o entries outcomes Hfit _ [IHc IHr]];
    [split; reflexivity|].
  assert (is_excluded_entry p (schema, table) = is_skipped o) as Hex
    by (symmetry; exact Hfit).
  cbn [pass_events List.filter]. rewrite !omap_app, IHc, IHr, !Hex.
  destruct o; split; reflexivity.
Qed.

(** X6.  When the two loops end normally, [get_profile_request] was
    called once on each table of the snapshot that the skip test lets
    through, in the order of the snapshot, and on no other table; the
    info records are those of the tables it stops, in order. *)
Theorem get_profile_request_called_once_per_eligible_table
  (config : SnowflakeV2Config) (database : SnowflakeDatabase)
  (db_tables : gmap string (list SnowflakeTable))
  (w w' : World) (requests : list TableProfilerRequest) :
  collect config database db_tables w = (Ok requests, w') ->
  profile_request_calls (trace w')
  = profile_request_calls (trace w)
    ++ List.filter (fun entry => negb (is_excluded_entry (profiling config) entry))
         (visited database db_tables)
  /\ info_records (trace w')
     = info_records (trace w)
       ++ (skip_record (database_name database)
             <$> List.filter (is_excluded_entry (profiling config))
                   (visited database db_tables)).
Proof.
  intros Hrun.
  apply collect_Ok in Hrun as (outcomes & Hfits & _ & Htrace & _).
  destruct (pass_events_calls _ (database_name database) _ _ Hfits) as [Hc Hr].
  rewrite Htrace. unfold profile_request_calls, info_records in *.
  rewrite !omap_app, Hc, Hr. split; reflexivity.
Qed.

Lemma skips_of_excluded_in p schema entries outcomes :
  Forall2 (outcome_fits p) entries outcomes ->
  skips_of schema entries outcomes = excluded_in p schema entries.
Proof.
  induction 1 as [|entry o entries outcomes Hfit _ IH]; [reflexivity|].
  assert (is_excluded_entry p entry = is_skipped o) as Hex
    by (symmetry; exact Hfit).
  cbn [skips_of excluded_in]. rewrite IH, Hex. reflexivity.
Qed.

(** X7.  When the two loops end normally and the inherited methods leave
    [profiling_skipped_other] alone, the counter of every schema has
    grown by the number of its tables that are external and excluded. *)
Theorem skip_counters_grow_by_excluded_tables
  (config : SnowflakeV2Config) (database : SnowflakeDatabase)
  (db_tables : gmap string (list SnowflakeTable))
  (w w' : World) (requests : list TableProfilerRequest) :
  (forall t s d, leaves_counters (get_profile_request t s d)) ->
  (forall pretty, leaves_counters (report_entity_profiled pretty)) ->
  collect config database db_tables w = (Ok requests, w') ->
  forall schema,
    counter (profiling_skipped_other w') schema
    = counter (profiling_skipped_other w) schema
      + excluded_in (profiling config) schema (visited database db_tables).
Proof.
  intros Hget Hreport Hrun schema.
  apply collect_Ok in Hrun as (outcomes & Hfits & _ & _ & Hcount).
  rewrite (Hcount Hget Hreport schema).
  rewrite (skips_of_excluded_in _ _ _ _ Hfits). reflexivity.
Qed.

(** X12.  With [profile_external_tables] on, the skip test stops no
    table: when the two loops end normally, [get_profile_request] was
    called once on every table of the snapshot, in order, external or not,
    and no info record was logged. *)
Theorem external_tables_profiled_when_allowed
  (config : SnowflakeV2Config) (database : SnowflakeDatabase)
  (db_tables : gmap string (list SnowflakeTable))
  (w w' : World) (requests : list TableProfilerRequest) :
  profile_external_tables (profiling config) = true ->
  collect config database db_tables w = (Ok requests, w') ->
  profile_request_calls (trace w')
  = profile_request_calls (trace w) ++ visited database db_tables
  /\ info_records (trace w') = info_records (trace w).
Proof.
  intros Hallowed Hrun.
  apply collect_Ok in Hrun as (outcomes & Hfits & _ & Htrace & _).
  destruct (pass_events_calls _ (database_name database) _ _ Hfits) as [Hc Hr].
  assert (forall entry, is_excluded_entry (profiling config) entry = false) as Hnone.
  { intros entry. unfold is_excluded_entry, external_table_excluded.
    rewrite Hallowed. reflexivity. }
  assert (forall entries : list (string * SnowflakeTable),
             List.filter (fun entry => negb (is_excluded_entry (profiling config) entry))
               entries = entries
             /\ List.filter (is_excluded_entry (profiling config)) entries = [])
    as Hfilter.
  { intros entries. induction entries as [|entry entries [IH1 IH2]];
      [split; reflexivity|].
    cbn [List.filter]. rewrite Hnone, IH1, IH2. split; reflexivity. }
  destruct (Hfilter (visited database db_tables)) as [Hall Hempty].
  rewrite Hall in Hc. rewrite Hempty in Hr.
  rewrite Htrace. unfold profile_request_calls, info_records in *.
  rewrite !omap_app, Hc, Hr, app_nil_r. split; reflexivity.
Qed.

End PassesFurther.

(** ** Passes that call no collaborator, options, and the profiler instance *)

Section InstancesFurther.

Context `{PythonRuntime} `{Collaborators}.

(** The inner loop over tables that all fall to the skip test. *)
Lemma collect_tables_all_excluded config db_name schema tables :
  Forall (fun table => external_table_excluded (profiling config) table = true)
    tables ->
  forall requests w,
    exists w',
      for_each (collect_table config db_name schema) requests tables w
      = (Ok requests, w')
      /\ ext w' = ext w
      /\ options w' = options w
      /\ trace w' = trace w
                    ++ ((fun entry => LogInfo (skip_record db_name entry))
                          <$> (pair schema <$> tables))
      /\ forall s,
           counter (profiling_skipped_other w') s
           = counter (profiling_skipped_other w) s
             + excluded_in (profiling config) s (pair schema <$> tables).
Proof.
  induction 1 as [|table tables Hex _ IH]; intros requests w.
  - exists w. simpl. rewrite app_nil_r. repeat split; auto. intros s. lia.
  - cbn [for_each]. unfold mbind, M_bind.
    rewrite collect_table_excluded by exact Hex.
    destruct (IH requests
                {| options := options w;
                   profiling_skipped_other :=
                     increment schema (profiling_skipped_other w);
                   ext := ext w;
                   trace := trace w
                            ++ [LogInfo (skip_message db_name schema (name table))] |})
      as (w' & Hrun & Hext & Hopts & Htrace & Hcount).
    exists w'. split; [exact Hrun|]. split; [exact Hext|]. split; [exact Hopts|].
    split.
    + rewrite Htrace. cbn [trace]. rewrite <- app_assoc. reflexivity.
    + intros s. rewrite Hcount. cbn [profiling_skipped_other].
      rewrite counter_increment, fmap_cons. cbn [excluded_in fst].
      unfold is_excluded_entry at 1. cbn [snd]. rewrite Hex. simpl. lia.
Qed.

(** X8.  A pass over a snapshot whose schemas all have their entry and
    whose tables are all external and excluded cannot fail: it calls no
    collaborator, yields no work unit, logs one info record for each table
    in order and adds to each schema's counter the number of its tables.
    A database with no schema is one such snapshot. *)
Theorem pass_over_excluded_tables_calls_nobody
  (config : SnowflakeV2Config) (database : SnowflakeDatabase)
  (db_tables : gmap string (list SnowflakeTable)) (w : World) :
  Forall (fun schema => is_Some (db_tables !! schema_name schema))
    (schemas database) ->
  Forall (fun entry => is_excluded_entry (profiling config) entry = true)
    (visited database db_tables) ->
  exists w',
    get_workunits config database db_tables w = (Ok [], w')
    /\ ext w' = ext w
    /\ trace w' = trace w
                  ++ ((fun entry => LogInfo (skip_record (database_name database) entry))
                        <$> visited database db_tables)
    /\ forall s,
         counter (profiling_skipped_other w') s
         = counter (profiling_skipped_other w) s
           + excluded_in (profiling config) s (visited database db_tables).
Proof.
  intros Hentries Hall.
  destruct (default_max_overflow_Ok config w) as (w0 & Hfirst & Htrace0 & _).
  assert (ext w0 = ext w /\ profiling_skipped_other w0 = profiling_skipped_other w)
    as [Hext0 Hcount0].
  { revert Hfirst. unfold default_max_overflow, options_setdefault.
    destruct (is_profiling_enabled config);
      [destruct (options w !! "max_overflow"%string)|];
      intros [= <-]; auto. }
  assert (exists w',
             collect config database db_tables w0 = (Ok [], w')
             /\ ext w' = ext w0
             /\ trace w' = trace w0
                  ++ ((fun entry => LogInfo (skip_record (database_name database) entry))
                        <$> visited database db_tables)
             /\ forall s,
                  counter (profiling_skipped_other w') s
                  = counter (profiling_skipped_other w0) s
                    + excluded_in (profiling config) s (visited database db_tables))
    as (w' & Hrun & Hext & Htrace & Hcount).
  { unfold collect, visited in *. generalize (@nil TableProfilerRequest) as requests.
    revert Hall. generalize w0. clear Hfirst Htrace0 Hext0 Hcount0.
    induction Hentries as [|schema rest [tables Htables] _ IH];
      intros w1 Hall requests.
    - exists w1. simpl. rewrite app_nil_r. repeat split; auto. intros s. lia.
    - cbn [flat_map] in Hall |- *. rewrite Htables in Hall |- *.
      change (default [] (Some tables)) with tables in Hall |- *.
      apply Forall_app in Hall as [Hhere Hrest].
      assert (Forall (fun table =>
                        external_table_excluded (profiling config) table = true)
                tables) as Htabs.
      { apply Forall_fmap in Hhere. exact Hhere. }
      cbn [for_each]. unfold mbind, M_bind.
      unfold collect_schema at 1, getitem, mbind, M_bind. rewrite Htables.
      cbn [mret M_ret].
      destruct (collect_tables_all_excluded config (database_name database)
                  (schema_name schema) tables Htabs requests w1)
        as (w2 & Hrun2 & Hext2 & _ & Htrace2 & Hcount2).
      rewrite Hrun2.
      destruct (IH w2 Hrest requests) as (w3 & Hrun3 & Hext3 & Htrace3 & Hcount3).
      exists w3. split; [exact Hrun3|]. split; [congruence|]. split.
      + rewrite Htrace3, Htrace2, fmap_app, <- app_assoc. reflexivity.
      + intros s. rewrite Hcount3, Hcount2.
        assert (forall l1 l2,
                   excluded_in (profiling config) s (l1 ++ l2)
                   = excluded_in (profiling config) s l1
                     + excluded_in (profiling config) s l2) as Happ.
        { intros l1 l2. induction l1 as [|e l1 IHl]; simpl; [reflexivity|].
          rewrite IHl. lia. }
        rewrite Happ. lia. }
  exists w'. split.
  - unfold get_workunits, mbind, M_bind. rewrite Hfirst, Hrun. reflexivity.
  - split; [congruence|]. split; [rewrite Htrace, Htrace0; reflexivity|].
    intros s. rewrite Hcount, Hcount0. reflexivity.
Qed.

(** X9.  The first pass with profiling enabled settles [max_overflow],
    provided the inherited methods do not write that key: the options
    hold a value for it after the pass, and a later pass, over any database
    and with any configuration, leaves that value as it is. *)
Theorem later_passes_keep_the_options
  (config config' : SnowflakeV2Config) (database database' : SnowflakeDatabase)
  (db_tables db_tables' : gmap string (list SnowflakeTable)) (w : World) :
  is_profiling_enabled config = true ->
  (forall t s d,
     keeps_option "max_overflow"%string (get_profile_request t s d)) ->
  (forall pretty,
     keeps_option "max_overflow"%string (report_entity_profiled pretty)) ->
  (forall requests workers db pf args,
     keeps_option "max_overflow"%string
       (generate_profile_workunits requests workers db pf args)) ->
  let w1 := snd (get_workunits config database db_tables w) in
  is_Some (options w1 !! "max_overflow"%string)
  /\ options (snd (get_workunits config' database' db_tables' w1))
       !! "max_overflow"%string
     = options w1 !! "max_overflow"%string.
Proof.
  intros Hon Hget Hreport Hgenerate w1.
  assert (is_Some (options w1 !! "max_overflow"%string)) as [v Hv].
  { subst w1.
    rewrite (get_workunits_keeps_option _ config database db_tables w
               Hget Hreport Hgenerate).
    destruct (default_max_overflow_Ok config w) as (w0 & Hfirst & _ & Hopts).
    rewrite Hfirst. simpl. rewrite Hopts, Hon.
    destruct (options w !! "max_overflow"%string) eqn:Hk; [eauto|].
    rewrite lookup_insert_eq. eauto. }
  split; [eauto|].
  rewrite (get_workunits_keeps_option _ config' database' db_tables' w1
             Hget Hreport Hgenerate).
  destruct (default_max_overflow_Ok config' w1) as (w2 & Hfirst & _ & Hopts).
  rewrite Hfirst. simpl.
  assert (options w2 = options w1) as ->; [|reflexivity].
  rewrite Hopts, Hv. destruct (is_profiling_enabled config'); reflexivity.
Qed.

(** X10.  For a database name that is not empty, [get_profiler_instance]
    first writes the SQLAlchemy URL, built from the user name, the
    password and the role, to the debug log; then it asks the
    configuration for its options, creates the engine for that URL,
    connects, inspects and builds the profiler, in this order, each only
    if the one before returned, and all five when an instance is
    returned. *)
Theorem get_profiler_instance_stages
  (config : SnowflakeV2Config) (c : ascii) (s : string) (w : World) :
  let db_name := String c s in
  let url := get_sql_alchemy_url config db_name
               (username config) (password config) (role config) in
  let run := get_profiler_instance config (Some db_name) w in
  let stages := [CallGetOptions; CallCreateEngine url; CallConnect;
                 CallInspect; CallDatahubGEProfiler] in
  exists rest,
    trace (snd run)
    = trace w ++ LogDebug ("sql_alchemy_url=" +:+ url) :: CallGetOptions :: rest
    /\ CallGetOptions :: rest `prefix_of` stages
    /\ ((exists profiler, fst run = Ok profiler) ->
        CallGetOptions :: rest = stages).
Proof.
  intros db_name url run stages. subst run stages.
  unfold get_profiler_instance. fold db_name. fold url.
  unfold call, lift_shared, emit, mbind, M_bind, mret, M_ret. simpl.
  destruct (get_options _) as [[opts|e] [[o0 c0] x0]]; simpl.
  2:{ exists []. rewrite <- !app_assoc. repeat split; auto.
      - eexists. reflexivity.
      - intros [profiler Hp]. discriminate. }
  destruct (create_engine _ _ _ _) as [[engine|e] [[o1 c1] x1]]; simpl.
  2:{ exists [CallCreateEngine url]. rewrite <- !app_assoc. repeat split; auto.
      - eexists. reflexivity.
      - intros [profiler Hp]. discriminate. }
  destruct (connect _ _) as [[conn|e] [[o2 c2] x2]]; simpl.
  2:{ exists [CallCreateEngine url; CallConnect]. rewrite <- !app_assoc.
      repeat split; auto.
      - eexists. reflexivity.
      - intros [profiler Hp]. discriminate. }
  destruct (inspect _ _) as [[inspector|e] [[o3 c3] x3]]; simpl.
  2:{ exists [CallCreateEngine url; CallConnect; CallInspect].
      rewrite <- !app_assoc. repeat split; auto.
      - eexists. reflexivity.
      - intros [profiler Hp]. discriminate. }
  destruct (new_DatahubGEProfiler _ _ _ _) as [r [[o4 c4] x4]]; simpl.
  exists [CallCreateEngine url; CallConnect; CallInspect; CallDatahubGEProfiler].
  rewrite <- !app_assoc. repeat split; auto.
Qed.

End InstancesFurther.

(** ** The dialect registry *)

(** X11.  After the import, GEOGRAPHY and GEOMETRY map to [NullType]
    whatever they mapped to before, every other type name maps to what it
    did, and running the two statements again changes nothing. *)
Theorem register_null_types_overrides_two_names
  (ischema_names : gmap string Dialect.SqlType) :
  let registered := Dialect.register_null_types ischema_names in
  registered !! "GEOGRAPHY"%string = Some Dialect.NullType
  /\ registered !! "GEOMETRY"%string = Some Dialect.NullType
  /\ (forall type_name,
        type_name <> "GEOGRAPHY"%string -> type_name <> "GEOMETRY"%string ->
        registered !! type_name = ischema_names !! type_name)
  /\ Dialect.register_null_types registered = registered.
Proof.
  intros registered. subst registered. unfold Dialect.register_null_types.
  split; [|split; [|split]].
  - rewrite lookup_insert_ne by discriminate. apply lookup_insert_eq.
  - apply lookup_insert_eq.
  - intros type_name Hg Hm. rewrite !lookup_insert_ne by congruence. reflexivity.
  - apply map_eq. intros key. rewrite !lookup_insert.
    repeat case_decide; reflexivity.
Qed.

(** ** The further properties on the sample warehouse *)

Module FurtherRuns.

Import Sample FurtherSample.

(** The fraction in the query for a million rows is a percentage made
    of digits. *)
Lemma orders_fraction_is_a_percentage :
  exists n : Z,
    0 <= n <= 10 ^ 10
    /\ custom_sql profiling_config orders "PUBLIC" "DB"
       = Ok (Some (query_text "ORDERS"
                     (PyStrOps.decimal (n / 10 ^ 8) +:+ "."
                        +:+ PyStrOps.low_digits 8 (n mod 10 ^ 8))))
    /\ PyStrChecks.all_digits (PyStrOps.decimal (n / 10 ^ 8)) = true
    /\ PyStrOps.decimal (n / 10 ^ 8) <> EmptyString
    /\ PyStrChecks.all_digits (PyStrOps.low_digits 8 (n mod 10 ^ 8)) = true
    /\ String.length (PyStrOps.low_digits 8 (n mod 10 ^ 8)) = 8%nat.
Proof.
  exact (sampling_fraction_is_a_percentage profiling_config orders
           "PUBLIC" "DB" eq_refl ltac:(simpl; lia)).
Defined.

(** That query, written out: one percent. *)
Example orders_query :
  custom_sql profiling_config orders "PUBLIC" "DB"
  = Ok (Some (query_text "ORDERS" "1.00000000")).
Proof. vm_compute. reflexivity. Qed.

(** A table of 10^15 rows against a sample of ten thousand: nothing is
    sampled. *)
Lemma huge_table_samples_nothing :
  custom_sql profiling_config huge "PUBLIC" "DB"
  = Ok (Some (query_text "HUGE" "0.00000000")).
Proof.
  exact (sampling_fraction_underflows_to_zero profiling_config huge
           "PUBLIC" "DB" (10 ^ 15)%N eq_refl eq_refl
           ltac:(simpl; lia) ltac:(simpl; lia)).
Defined.

(** A sample size of -5 against five rows: the fraction carries a minus
    sign. *)
Lemma negative_sample_of_five_rows :
  exists n : Z,
    custom_sql negative_sample five_rows "PUBLIC" "DB"
    = Ok (Some (query_text "FIVE"
                  ("-" +:+ PyStrOps.decimal (n / 10 ^ 8) +:+ "."
                     +:+ PyStrOps.low_digits 8 (n mod 10 ^ 8))))
    /\ PyStrChecks.all_digits (PyStrOps.decimal (n / 10 ^ 8)) = true
    /\ String.length (PyStrOps.low_digits 8 (n mod 10 ^ 8)) = 8%nat.
Proof.
  destruct (negative_sample_size_gives_signed_fraction negative_sample
              five_rows "PUBLIC" "DB" eq_refl ltac:(simpl; lia))
    as [Hraise|Hsigned].
  - vm_compute in Hraise. discriminate.
  - exact Hsigned.
Defined.

(** That query, written out, and the kwargs with it. *)
Example negative_sample_query :
  custom_sql negative_sample five_rows "PUBLIC" "DB"
  = Ok (Some (query_text "FIVE" "-100.00000000")).
Proof. vm_compute. reflexivity. Qed.

(** A sample size of -2^1030 against five rows: the division raises, and
    so does [get_batch_kwargs]. *)
Example far_below_zero_raises :
  get_batch_kwargs (config_of far_below_zero) five_rows "PUBLIC" "DB"
  = Raise OverflowError.
Proof. vm_compute. reflexivity. Qed.

(** A database with the schema PUBLIC and a schema the catalog does not
    hold: the pass raises on the second. *)
Lemma missing_schema_in_sample :
  fst (get_workunits config two_schemas (catalog [orders]) empty_world)
  = Raise (KeyError "STAGING").
Proof.
  destruct (missing_schema_raises_KeyError config "DB" [public] staging []
              (catalog [orders]) empty_world
              (snd (collect config database (catalog [orders])
                      (snd (default_max_overflow config empty_world))))
              (pending [orders]) eq_refl ltac:(reflexivity))
    as [Hrun _].
  unfold two_schemas. rewrite Hrun. reflexivity.
Defined.

(** Of the three tables, the request is asked for the two that are not
    external, in order, and the external one is logged. *)
Lemma sample_calls_and_records :
  profile_request_calls
    (trace (snd (run_collect [external_table; orders; events])))
  = [("PUBLIC"%string, orders); ("PUBLIC"%string, events)]
  /\ info_records (trace (snd (run_collect [external_table; orders; events])))
     = ["Skipping profiling of external table DB.PUBLIC.EXT_SALES"%string].
Proof.
  destruct (get_profile_request_called_once_per_eligible_table config database
              (catalog [external_table; orders; events]) empty_world
              (snd (run_collect [external_table; orders; events]))
              (pending [external_table; orders; events])
              ltac:(reflexivity))
    as [Hcalls Hrecords].
  rewrite Hcalls, Hrecords. split; vm_compute; reflexivity.
Defined.

(** The counter of PUBLIC after the pass over the three tables is 1. *)
Lemma sample_counter_after_pass :
  counter
    (profiling_skipped_other (snd (run_collect [external_table; orders; events])))
    "PUBLIC"
  = 1.
Proof.
  rewrite (skip_counters_grow_by_excluded_tables config database
             (catalog [external_table; orders; events]) empty_world
             (snd (run_collect [external_table; orders; events]))
             (pending [external_table; orders; events])
             (fun _ _ _ _ _ _ => eq_refl) (fun _ _ _ _ => eq_refl)
             ltac:(reflexivity) "PUBLIC"%string).
  vm_compute. reflexivity.
Defined.

(** A schema with the external table alone: no collaborator is called. *)
Lemma external_only_pass_calls_nobody :
  exists w',
    run_pass [external_table] empty_world = (Ok [], w')
    /\ ext w' = empty_warehouse.
Proof.
  destruct (pass_over_excluded_tables_calls_nobody config database
              (catalog [external_table]) empty_world)
    as (w' & Hrun & Hext & _).
  - constructor; [|constructor]. exists [external_table]. reflexivity.
  - change (visited database (catalog [external_table]))
      with [("PUBLIC"%string, external_table)].
    constructor; [reflexivity|constructor].
  - exists w'. split; [exact Hrun|exact Hext].
Defined.

(** After a pass with twenty workers, a pass configured with five leaves
    [max_overflow] at twenty. *)
Lemma second_pass_keeps_twenty :
  options
    (snd (get_workunits five_workers database (catalog [])
            (snd (run_pass [orders] empty_world))))
    !! "max_overflow"%string
  = Some (PyInt 20).
Proof.
  destruct (later_passes_keep_the_options config five_workers
              database database (catalog [orders]) (catalog []) empty_world
              eq_refl) as [_ Hkeep].
  - intros t s d opts counters e. reflexivity.
  - intros pretty opts counters e. reflexivity.
  - intros requests workers db pf args opts counters e. simpl.
    apply lookup_insert_ne. discriminate.
  - etransitivity; [exact Hkeep|]. vm_compute. reflexivity.
Defined.

(** With external tables allowed, the external table and the ordinary
    one both get their call. *)
Lemma external_table_called_when_allowed :
  profile_request_calls
    (trace (snd (run_collect_with allowing [external_table; orders])))
  = [("PUBLIC"%string, external_table); ("PUBLIC"%string, orders)].
Proof.
  destruct (external_tables_profiled_when_allowed allowing database
              (catalog [external_table; orders]) empty_world
              (snd (run_collect_with allowing [external_table; orders]))
              (pending_with allowing [external_table; orders])
              eq_refl ltac:(reflexivity))
    as [Hcalls _].
  rewrite Hcalls. vm_compute. reflexivity.
Defined.

End FurtherRuns.
